(** * print_sys_info.py: a shallow embedding and its checked properties

    The script gathers operating-system, interpreter, network, filesystem
    and clock data and prints six rich renderables.  This development
    embeds [format_bytes], [get_network_info], [get_filesystem_info] and
    [main] and proves the properties stated about them.

    Layout:
    - [Py]       exceptions, outcomes of calls, the decimal printer;
    - [Float64]  the binary64 numbers Python's [float] is made of;
    - [Num]      Python numbers ([int] or [float]) and the operations
                 [<], [/] and the [.2f] format the script uses;
    - the program itself, then the theorems. *)

From Stdlib Require Import ZArith Bool List String Ascii Lia DecimalString.
From Stdlib Require Import Floats.SpecFloat.
Import ListNotations.
Local Open Scope string_scope.
Local Open Scope Z_scope.

(* ------------------------------------------------------------------ *)
(** ** Python exceptions and call outcomes *)

Module Py.

(** The exception classes that matter to the script: the ones its
    [except] clauses name, their subclasses raised by the calls it makes,
    and the ones that can escape. *)
Inductive exn : Type :=
| Exception
| OSError              (* socket.error is an alias of OSError *)
| FileNotFoundError
| PermissionError
| TimeoutError
| gaierror             (* socket.gaierror *)
| herror               (* socket.herror *)
| AttributeError
| NameError
| ValueError
| UnicodeError
| UnicodeEncodeError
| ArithmeticError
| OverflowError
| ConsoleError         (* rich.errors.ConsoleError *)
| MarkupError.         (* rich.errors.MarkupError *)

(** Direct base class, [None] for the root of this fragment. *)
Definition base (e : exn) : option exn :=
  match e with
  | Exception => None
  | OSError => Some Exception
  | FileNotFoundError => Some OSError
  | PermissionError => Some OSError
  | TimeoutError => Some OSError
  | gaierror => Some OSError
  | herror => Some OSError
  | AttributeError => Some Exception
  | NameError => Some Exception
  | ValueError => Some Exception
  | UnicodeError => Some ValueError
  | UnicodeEncodeError => Some UnicodeError
  | ArithmeticError => Some Exception
  | OverflowError => Some ArithmeticError
  | ConsoleError => Some Exception
  | MarkupError => Some ConsoleError
  end.

Definition exn_eqb (a b : exn) : bool :=
  match a, b with
  | Exception, Exception | OSError, OSError
  | FileNotFoundError, FileNotFoundError | PermissionError, PermissionError
  | TimeoutError, TimeoutError | gaierror, gaierror | herror, herror
  | AttributeError, AttributeError | NameError, NameError
  | ValueError, ValueError | UnicodeError, UnicodeError
  | UnicodeEncodeError, UnicodeEncodeError
  | ArithmeticError, ArithmeticError | OverflowError, OverflowError
  | ConsoleError, ConsoleError | MarkupError, MarkupError => true
  | _, _ => false
  end.

(** [issubclass e c]: walk the base-class chain (three links suffice). *)
Fixpoint issubclass_fuel (fuel : nat) (e c : exn) : bool :=
  exn_eqb e c ||
  match fuel with
  | O => false
  | S fuel' => match base e with
               | Some b => issubclass_fuel fuel' b c
               | None => false
               end
  end.

Definition issubclass (e c : exn) : bool := issubclass_fuel 3 e c.

(** An [except (c1, c2, ...)] clause catches [e] when [e] is an instance
    of one of the listed classes. *)
Definition catches (classes : list exn) (e : exn) : bool :=
  existsb (issubclass e) classes.

(** Outcome of a call: a value, or a raised exception. *)
Inductive outcome (A : Type) : Type :=
| Returns (a : A)
| Raises (e : exn).
Arguments Returns {A} a.
Arguments Raises {A} e.

(** [str(n)] for a non-negative [int]. *)
Definition dec (n : Z) : string :=
  NilZero.string_of_uint (N.to_uint (Z.to_N n)).

(** [str(z)] for any [int]. *)
Definition str_int (z : Z) : string :=
  if z <? 0 then "-" ++ dec (- z) else dec z.

(** One decimal digit. *)
Definition digit (d : Z) : string :=
  String (ascii_of_nat (48 + Z.to_nat d)) EmptyString.

(** A count of hundredths [n >= 0] written with two decimals:
    [fixed2 153650 = "1536.50"]. *)
Definition fixed2 (n : Z) : string :=
  dec (n / 100) ++ "." ++ digit ((n mod 100) / 10) ++ digit (n mod 10).

End Py.
Import Py.

(* ------------------------------------------------------------------ *)
(** ** IEEE-754 binary64, the representation of Python's [float] *)

Module Float64.

Definition prec : Z := 53.
Definition emin : Z := -1074.
Definition emax : Z := 1024.

(** [Finite neg m e] stands for [(-1)^neg * m * 2^e] with [0 <= m]. *)
Inductive float : Type :=
| Finite (neg : bool) (m e : Z)
| Inf (neg : bool)
| NaN.

Definition bit_length (n : Z) : Z :=
  if n =? 0 then 0 else Z.log2 n + 1.

(** [n / 2^k] rounded to the nearest integer, ties to even ([0 <= n]). *)
Definition round_shr (n k : Z) : Z :=
  if k <=? 0 then n
  else
    let q := n / 2 ^ k in
    let r := n mod 2 ^ k in
    let h := 2 ^ (k - 1) in
    match r ?= h with
    | Lt => q
    | Gt => q + 1
    | Eq => if Z.even q then q else q + 1
    end.

(** The binary64 number nearest to [(-1)^neg * n * 2^e] (ties to even):
    at most 53 significant bits, no exponent below [emin]; a magnitude
    that rounds to [2^1024] or more is an overflow, shown as [Inf]. *)
Definition shift (n e : Z) : Z :=
  Z.max 0 (Z.max (bit_length n - prec) (emin - e)).

Definition round (neg : bool) (n e : Z) : float :=
  let k := shift n e in
  let m := round_shr n k in
  let e' := e + k in
  if (0 <=? e') && (2 ^ emax <=? m * 2 ^ e') then Inf neg
  else Finite neg m e'.

(** [n * 2^e] is below the point from which rounding gives [2^1024]:
    half an ulp above the largest finite binary64. *)
Definition below_overflow (n e : Z) : Prop :=
  n * 2 ^ Z.max e 0 < (2 ^ emax - 2 ^ (emax - prec - 1)) * 2 ^ Z.max (- e) 0.

(** Non-negative finite floats, as [round] produces them. *)
Definition regular (f : float) : Prop :=
  match f with
  | Finite s m e =>
      s = false /\ 0 <= m <= 2 ^ prec /\ (0 <= e -> m * 2 ^ e < 2 ^ emax)
  | _ => False
  end.

(** Division of a float by [2^k], correctly rounded. *)
Definition div_pow2 (f : float) (k : Z) : float :=
  match f with
  | Finite s m e => round s m (e - k)
  | Inf s => Inf s
  | NaN => NaN
  end.

(** [f < c] for an integer [c] (an exact comparison, as Python does it). *)
Definition ltb_int (f : float) (c : Z) : bool :=
  match f with
  | Finite s m e =>
      let sm := if s then - m else m in
      if 0 <=? e then sm * 2 ^ e <? c else sm <? c * 2 ^ (- e)
  | Inf s => s
  | NaN => false
  end.

(** The magnitude of [f] in hundredths, rounded to the nearest integer,
    ties to even: what a [.2f] conversion prints. *)
Definition hundredths (m e : Z) : Z :=
  if 0 <=? e then 100 * m * 2 ^ e else round_shr (100 * m) (- e).

(** [format(f, '.2f')].  The sign is printed whenever the sign bit is
    set, also in front of a magnitude that rounds to [0.00]. *)
Definition format_2f (f : float) : string :=
  match f with
  | Finite s m e => (if s then "-" else "") ++ fixed2 (hundredths m e)
  | Inf s => if s then "-inf" else "inf"
  | NaN => "nan"
  end.

(** The same number in the Standard Library's IEEE-754 specification. *)
Definition to_spec (f : float) : spec_float :=
  match f with
  | Finite s m e =>
      match m with
      | Z.pos p => binary_round prec emax s p e
      | _ => S754_zero s
      end
  | Inf s => S754_infinity s
  | NaN => S754_nan
  end.

End Float64.

(* ------------------------------------------------------------------ *)
(** ** Python numbers *)

Module Num.
Import Float64.

Inductive pynum : Type :=
| PyInt (z : Z)
| PyFloat (f : float).

(** [float(z)]: nearest binary64, [OverflowError] when out of range. *)
Definition float_of_int (z : Z) : outcome float :=
  match round (z <? 0) (Z.abs z) 0 with
  | Inf _ => Raises OverflowError
  | f => Returns f
  end.

(** [v < c] with [c] an [int] literal. *)
Definition lt (v : pynum) (c : Z) : bool :=
  match v with
  | PyInt z => z <? c
  | PyFloat f => ltb_int f c
  end.

(** [v / 2**k] (true division).  [int / int] is the correctly rounded
    quotient and raises [OverflowError] when it is too large for a
    float; [float / int] is IEEE division and never raises here. *)
Definition truediv_pow2 (v : pynum) (k : Z) : outcome pynum :=
  match v with
  | PyInt z =>
      match round (z <? 0) (Z.abs z) (- k) with
      | Inf _ => Raises OverflowError
      | f => Returns (PyFloat f)
      end
  | PyFloat f => Returns (PyFloat (div_pow2 f k))
  end.

(** [f"{v:.2f}"]: an [int] is converted with [float()] first. *)
Definition format_spec_2f (v : pynum) : outcome string :=
  match v with
  | PyInt z =>
      match float_of_int z with
      | Returns f => Returns (format_2f f)
      | Raises e => Raises e
      end
  | PyFloat f => Returns (format_2f f)
  end.

End Num.
Import Num.

(* ------------------------------------------------------------------ *)
(** ** [format_bytes] *)

(** [f"{bytes_value:.2f} {unit}"] *)
Definition fstring_value_unit (bytes_value : pynum) (unit : string)
  : outcome string :=
  match format_spec_2f bytes_value with
  | Returns s => Returns (s ++ " " ++ unit)
  | Raises e => Raises e
  end.

(** The [for unit in [...]] loop of [format_bytes], with the statement
    after the loop as the case of the exhausted list.  [1024] is
    [2 ^ 10]. *)
Fixpoint format_bytes_loop (units : list string) (bytes_value : pynum)
  : outcome string :=
  match units with
  | [] => fstring_value_unit bytes_value "PB"
  | unit :: rest =>
      if lt bytes_value 1024 then fstring_value_unit bytes_value unit
      else
        match truediv_pow2 bytes_value 10 with
        | Returns bytes_value' => format_bytes_loop rest bytes_value'
        | Raises e => Raises e
        end
  end.

Definition loop_units : list string := ["B"; "KB"; "MB"; "GB"; "TB"].

Definition format_bytes (bytes_value : pynum) : outcome string :=
  format_bytes_loop loop_units bytes_value.

(* ------------------------------------------------------------------ *)
(** ** The host and the process *)

(** [os.statvfs_result]; every field is a C [unsigned long]. *)
Record statvfs_result : Type := {
  f_bsize : Z;
  f_frsize : Z;
  f_blocks : Z;
  f_bfree : Z;
  f_bavail : Z;
  f_files : Z;
  f_ffree : Z;
  f_favail : Z;
  f_flag : Z;
  f_namemax : Z
}.

(** What one call of [GetDiskFreeSpaceExW] stores through its three
    output pointers, in parameter order.  The call reports failure by
    returning zero (modelled as [None]): it raises nothing and leaves the
    three buffers untouched. *)
Record disk_free_space : Type := {
  lpFreeBytesAvailableToCaller : Z;
  lpTotalNumberOfBytes : Z;
  lpTotalNumberOfFreeBytes : Z
}.

(** What [console.print] is given. *)
Inductive renderable : Type :=
| Panel_fit (text style : string)
| Tree (label : string) (children : list string)
| Table (title box : string) (columns : list (string * string))
        (rows : list (list string))
| Panel (text title border_style : string)
| Markup (text : string).

(** Everything the script asks of the platform, as answers fixed for the
    time of one call.  The [platform], [sys] and [time] reads always
    succeed; socket, filesystem and [ctypes] calls return or raise, and
    so does the console when it is given something to print. *)
Record host : Type := {
  os_name : string;
  platform_system : string;
  platform_release : string;
  platform_version : string;
  platform_platform : string;
  platform_architecture : string * string;
  platform_machine : string;
  platform_processor : string;
  platform_win32_edition : option string;
  platform_python_version : string;
  platform_python_compiler : string;
  platform_python_implementation : string;
  sys_executable : string;
  sys_api_version : Z;
  socket_gethostname : outcome string;
  socket_gethostbyname : string -> outcome string;
  socket_getfqdn : outcome string;
  os_statvfs : string -> outcome statvfs_result;
  os_getcwd : outcome string;
  (* the attribute lookup ctypes.windll.kernel32.GetDiskFreeSpaceExW,
     then the call of what it found *)
  kernel32_GetDiskFreeSpaceExW :
    outcome (string -> outcome (option disk_free_space));
  time_asctime_gmtime : string;
  time_asctime_localtime : string;
  time_tzname : string * string;
  (* what rich's Console.print does with a renderable on this stdout:
     it renders it (strings are parsed as markup) and writes the text,
     or raises: MarkupError for a closing tag that matches no open tag,
     and the UnicodeEncodeError of a stdout that cannot encode the
     text, which it re-raises *)
  rich_console_print : renderable -> outcome unit
}.

(** The dict [get_network_info] returns; [None] is Python's [None]. *)
Record network_info : Type := {
  hostname : option string;
  ip_address : option string;
  fqdn : option string
}.

(** The dict [get_filesystem_info] returns; the key ['type'] is present
    on the POSIX path only. *)
Record filesystem_info : Type := {
  total : string;
  available : string;
  used : string;
  type : option Z
}.

(** Calls that leave the process, in the order they are made. *)
Inductive syscall : Type :=
| Call_gethostname
| Call_gethostbyname (name : string)
| Call_getfqdn
| Call_statvfs (path : string)
| Call_getcwd
| Call_GetDiskFreeSpaceExW (path : string).

(** The mutable state of the running script. *)
Record process : Type := {
  stdout : list renderable;               (* printed so far *)
  network_cache : option network_info;    (* the slot of lru_cache(maxsize=1) *)
  ctypes_imported : bool;                 (* is the global name ctypes bound *)
  calls : list syscall                    (* platform calls made so far *)
}.

Definition initial_process : process :=
  {| stdout := []; network_cache := None;
     ctypes_imported := false; calls := [] |}.

(** Statements run in a state-and-exception monad: an exception keeps
    the state reached when it was raised. *)
Definition M (A : Type) : Type := process -> outcome A * process.

Definition ret {A} (a : A) : M A := fun p => (Returns a, p).

Definition bind {A B} (m : M A) (k : A -> M B) : M B :=
  fun p =>
    match m p with
    | (Returns a, p') => k a p'
    | (Raises e, p') => (Raises e, p')
    end.

Notation "x <- m ;; k" := (bind m (fun x => k))
  (at level 61, m at next level, right associativity).
Notation "m ;;; k" := (bind m (fun _ => k))
  (at level 61, right associativity).

(** A pure computation that may raise. *)
Definition lift {A} (o : outcome A) : M A := fun p => (o, p).

(** The state after some more platform calls. *)
Definition logged (p : process) (cs : list syscall) : process :=
  {| stdout := stdout p; network_cache := network_cache p;
     ctypes_imported := ctypes_imported p; calls := calls p ++ cs |}.

(** The state after [console.print] of some renderables. *)
Definition printed (p : process) (rs : list renderable) : process :=
  {| stdout := stdout p ++ rs; network_cache := network_cache p;
     ctypes_imported := ctypes_imported p; calls := calls p |}.

(** The state after the cache slot is filled. *)
Definition cached (p : process) (r : network_info) : process :=
  {| stdout := stdout p; network_cache := Some r;
     ctypes_imported := ctypes_imported p; calls := calls p |}.

(** A platform call: its answer, and a line in the call log. *)
Definition call {A} (c : syscall) (answer : outcome A) : M A :=
  fun p => (answer, logged p [c]).

(** [try: body / except classes: handler] *)
Definition try_except {A} (body : M A) (classes : list exn) (handler : M A)
  : M A :=
  fun p =>
    match body p with
    | (Raises e, p') =>
        if catches classes e then handler p' else (Raises e, p')
    | r => r
    end.

(** [console.print(r)]: the renderable is printed in one piece, or
    the exception of the console leaves the call and nothing of [r] is
    printed. *)
Definition console_print (h : host) (r : renderable) : M unit :=
  fun p =>
    match rich_console_print h r with
    | Returns _ => (Returns tt, printed p [r])
    | Raises e => (Raises e, p)
    end.

(** [import ctypes] *)
Definition import_ctypes : M unit :=
  fun p =>
    (Returns tt,
     {| stdout := stdout p; network_cache := network_cache p;
        ctypes_imported := true; calls := calls p |}).

(** Reading the global name [ctypes]. *)
Definition name_ctypes : M unit :=
  fun p => if ctypes_imported p then (Returns tt, p) else (Raises NameError, p).

(** [ctypes.c_ulonglong(z).value]: 64 bits, wrapping. *)
Definition c_ulonglong_value (z : Z) : Z := z mod 2 ^ 64.

(* ------------------------------------------------------------------ *)
(** ** [get_network_info] *)

(** The body of the function, before [lru_cache] is applied. *)
Definition get_network_info_body (h : host) : M network_info :=
  try_except
    (hostname <- call Call_gethostname (socket_gethostname h) ;;
     ip_address <- call (Call_gethostbyname hostname)
                        (socket_gethostbyname h hostname) ;;
     fqdn <- call Call_getfqdn (socket_getfqdn h) ;;
     ret {| hostname := Some hostname;
            ip_address := Some ip_address;
            fqdn := if String.eqb fqdn hostname then None else Some fqdn |})
    [OSError]
    (ret {| hostname := None; ip_address := None; fqdn := None |}).

(** [@lru_cache(maxsize=1)] on a function without arguments: one slot,
    filled by the first call that returns; a raised exception is not
    cached. *)
Definition lru_cache (f : M network_info) : M network_info :=
  fun p =>
    match network_cache p with
    | Some r => (Returns r, p)
    | None =>
        match f p with
        | (Returns r, p') => (Returns r, cached p' r)
        | (Raises e, p') => (Raises e, p')
        end
    end.

Definition get_network_info (h : host) : M network_info :=
  lru_cache (get_network_info_body h).

(* ------------------------------------------------------------------ *)
(** ** [get_filesystem_info] *)

Definition get_filesystem_info (h : host) : M (option filesystem_info) :=
  if String.eqb (os_name h) "posix" then
    try_except
      (statvfs <- call (Call_statvfs ".") (os_statvfs h ".") ;;
       let total := f_frsize statvfs * f_blocks statvfs in
       let available := f_frsize statvfs * f_bavail statvfs in
       let used := total - available in
       s_total <- lift (format_bytes (PyInt total)) ;;
       s_available <- lift (format_bytes (PyInt available)) ;;
       s_used <- lift (format_bytes (PyInt used)) ;;
       ret (Some {| total := s_total; available := s_available;
                    used := s_used; type := Some (f_flag statvfs) |}))
      [FileNotFoundError; OSError]
      (ret None)
  else if String.eqb (os_name h) "nt" then
    try_except
      (name_ctypes ;;;
       let free_bytes := 0 in
       let total_bytes := 0 in
       let total_free_bytes := 0 in
       GetDiskFreeSpaceExW <- lift (kernel32_GetDiskFreeSpaceExW h) ;;
       cwd <- call Call_getcwd (os_getcwd h) ;;
       stored <- call (Call_GetDiskFreeSpaceExW cwd) (GetDiskFreeSpaceExW cwd) ;;
       (* the value the call returns is dropped; the buffers keep their
          zeros unless the call stored into them *)
       let free_bytes :=
         match stored with
         | Some d => lpFreeBytesAvailableToCaller d
         | None => free_bytes
         end in
       let total_bytes :=
         match stored with
         | Some d => lpTotalNumberOfBytes d
         | None => total_bytes
         end in
       let total_free_bytes :=
         match stored with
         | Some d => lpTotalNumberOfFreeBytes d
         | None => total_free_bytes
         end in
       s_total <- lift (format_bytes (PyInt (c_ulonglong_value total_bytes))) ;;
       s_available <-
         lift (format_bytes (PyInt (c_ulonglong_value free_bytes))) ;;
       s_used <-
         lift (format_bytes
                 (PyInt (c_ulonglong_value total_bytes
                         - c_ulonglong_value free_bytes))) ;;
       ret (Some {| total := s_total; available := s_available;
                    used := s_used; type := None |}))
      [AttributeError; OSError]
      (ret None)
  else ret None.

(* ------------------------------------------------------------------ *)
(** ** [main] and the script *)

Definition nl : string := String (ascii_of_nat 10) EmptyString.

(** [x or default] on a value that is a [str] or [None]: [None] and the
    empty string are false. *)
Definition py_or (x : option string) (default : string) : string :=
  match x with
  | Some s => if String.eqb s "" then default else s
  | None => default
  end.

(** [str(x)] for a value that is a [str] or [None]. *)
Definition str_option (x : option string) : string :=
  match x with
  | Some s => s
  | None => "None"
  end.

Definition could_not_be_determined : string :=
  "[red]Could not be determined[/red]".

Definition could_not_get_filesystem : string :=
  "[red]Could not get filesystem information[/red]".

Section Program.

(** Python's [repr] of a [str], which the script reaches only through
    [str()] of the two tuples it prints. *)
Variable repr_str : string -> string.

(** [str(t)] of a pair of strings. *)
Definition str_tuple2 (t : string * string) : string :=
  "(" ++ repr_str (fst t) ++ ", " ++ repr_str (snd t) ++ ")".

(** The tree under "Operating System Details". *)
Definition os_tree (h : host) : renderable :=
  Tree "🖥️ Operating System"
    (["Name: " ++ platform_system h;
      "Release: " ++ platform_release h;
      "Version: " ++ platform_version h;
      "Platform: " ++ platform_platform h;
      "Architecture: " ++ str_tuple2 (platform_architecture h);
      "Machine: " ++ platform_machine h;
      "Processor: " ++ platform_processor h]
     ++ (if String.eqb (os_name h) "nt"
         then ["Windows Edition: " ++ str_option (platform_win32_edition h)]
         else [])).

(** The table under "Python Environment Details". *)
Definition python_table (h : host) : renderable :=
  let python_info :=
    [("Version", platform_python_version h);
     ("Compiler", platform_python_compiler h);
     ("Implementation", platform_python_implementation h);
     ("Executable", sys_executable h);
     ("API Version", str_int (sys_api_version h))] in
  Table "🐍 Python Environment" "ROUNDED"
    [("Property", "cyan"); ("Value", "green")]
    (map (fun pv => [fst pv; snd pv]) python_info).

(** The panel under "Network Information". *)
Definition network_panel (net_info : network_info) : renderable :=
  Panel
    ("[cyan]Hostname:[/cyan] "
       ++ py_or (hostname net_info) could_not_be_determined ++ nl
     ++ "[cyan]IP Address:[/cyan] "
       ++ py_or (ip_address net_info) could_not_be_determined ++ nl
     ++ "[cyan]FQDN:[/cyan] "
       ++ py_or (fqdn net_info) could_not_be_determined)
    "🌐 Network Information" "blue".

(** The [if fs_info: ... else: ...] under "Filesystem Information". *)
Definition filesystem_section (fs_info : option filesystem_info)
  : renderable :=
  match fs_info with
  | Some fs =>
      Table "💾 Filesystem Information" "ROUNDED"
        [("Metric", "cyan"); ("Value", "green")]
        ([["Total Size"; total fs];
          ["Available Space"; available fs];
          ["Used Space"; used fs]]
         ++ match type fs with
            | Some t => [["Filesystem Type"; str_int t]]
            | None => []
            end)
  | None => Markup could_not_get_filesystem
  end.

(** The panel under "Time Information". *)
Definition time_panel (h : host) : renderable :=
  Panel
    ("[cyan]Current Time (UTC):[/cyan] " ++ time_asctime_gmtime h ++ nl
     ++ "[cyan]Current Time (Local):[/cyan] " ++ time_asctime_localtime h ++ nl
     ++ "[cyan]Current Timezone:[/cyan] " ++ str_tuple2 (time_tzname h))
    "⏰ Time Information" "blue".

Definition main (h : host) : M unit :=
  console_print h (Panel_fit "System Information" "bold blue") ;;;
  console_print h (os_tree h) ;;;
  console_print h (python_table h) ;;;
  net_info <- get_network_info h ;;
  console_print h (network_panel net_info) ;;;
  fs_info <- get_filesystem_info h ;;
  console_print h (filesystem_section fs_info) ;;;
  console_print h (time_panel h).

(** The [if __name__ == "__main__":] block. *)
Definition script (h : host) : M unit :=
  (if String.eqb (os_name h) "nt" then import_ctypes else ret tt) ;;;
  main h.

End Program.

(* ------------------------------------------------------------------ *)
(** ** Vocabulary of the statements *)

(** The six unit suffixes. *)
Definition unit_names : list string := loop_units ++ ["PB"].

(** The integers [float()] converts without overflow lie strictly
    between [- float_limit] and [float_limit]: half an ulp above the
    largest binary64, [2^1024 - 2^970]. *)
Definition float_limit : Z :=
  2 ^ Float64.emax - 2 ^ (Float64.emax - Float64.prec - 1).

(** The inputs on which no operation of [format_bytes] overflows: any
    float, and the integers [b] with [float(b)] finite (when
    [b < 1024]) or [b / 1024] finite (otherwise). *)
Definition in_float_range (v : pynum) : Prop :=
  match v with
  | PyInt b => - float_limit < b < float_limit * 1024
  | PyFloat _ => True
  end.

(** The fields of [os.statvfs_result] are C [unsigned long]s. *)
Definition unsigned_long (z : Z) : Prop := 0 <= z < 2 ^ 64.

Definition unsigned_long_fields (st : statvfs_result) : Prop :=
  unsigned_long (f_bsize st) /\ unsigned_long (f_frsize st) /\
  unsigned_long (f_blocks st) /\ unsigned_long (f_bfree st) /\
  unsigned_long (f_bavail st) /\ unsigned_long (f_files st) /\
  unsigned_long (f_ffree st) /\ unsigned_long (f_favail st) /\
  unsigned_long (f_flag st) /\ unsigned_long (f_namemax st).

(** Local name resolution fails with a socket error: one of the three
    socket calls, reached in the order of the source, raises an instance
    of [socket.error]. *)
Definition resolution_fails (h : host) : Prop :=
  (exists e, socket_gethostname h = Raises e /\ issubclass e OSError = true)
  \/ (exists name e,
        socket_gethostname h = Returns name /\
        socket_gethostbyname h name = Raises e /\
        issubclass e OSError = true)
  \/ (exists name ip e,
        socket_gethostname h = Returns name /\
        socket_gethostbyname h name = Returns ip /\
        socket_getfqdn h = Raises e /\
        issubclass e OSError = true).



Definition unavailable : network_info :=
  {| hostname := None; ip_address := None; fqdn := None |}.

(** *** Sample hosts *)

Definition sample_host
  (name : string)
  (gethostname : outcome string)
  (gethostbyname : string -> outcome string)
  (getfqdn : outcome string)
  (statvfs : string -> outcome statvfs_result)
  (GetDiskFreeSpaceExW : outcome (string -> outcome (option disk_free_space)))
  : host :=
  {| os_name := name;
     platform_system := if String.eqb name "nt" then "Windows" else "Linux";
     platform_release := "6.1";
     platform_version := "#1 SMP";
     platform_platform := "sample";
     platform_architecture := ("64bit", "ELF");
     platform_machine := "x86_64";
     platform_processor := "";
     platform_win32_edition :=
       if String.eqb name "nt" then Some "Professional" else None;
     platform_python_version := "3.13.0";
     platform_python_compiler := "GCC 13.2.0";
     platform_python_implementation := "CPython";
     sys_executable := "/usr/bin/python3";
     sys_api_version := 1013;
     socket_gethostname := gethostname;
     socket_gethostbyname := gethostbyname;
     socket_getfqdn := getfqdn;
     os_statvfs := statvfs;
     os_getcwd := Returns (if String.eqb name "nt" then "C:\work" else "/work");
     kernel32_GetDiskFreeSpaceExW := GetDiskFreeSpaceExW;
     time_asctime_gmtime := "Wed Nov  4 10:00:00 2026";
     time_asctime_localtime := "Wed Nov  4 11:00:00 2026";
     time_tzname := ("CET", "CEST");
     rich_console_print := fun _ => Returns tt |}.

Definition sample_statvfs : statvfs_result :=
  {| f_bsize := 4096; f_frsize := 4096; f_blocks := 1000; f_bfree := 300;
     f_bavail := 250; f_files := 65536; f_ffree := 60000; f_favail := 60000;
     f_flag := 4096; f_namemax := 255 |}.

Definition sample_disk : disk_free_space :=
  {| lpFreeBytesAvailableToCaller := 1024000;
     lpTotalNumberOfBytes := 4096000;
     lpTotalNumberOfFreeBytes := 1228800 |}.

(** A Linux machine where everything resolves. *)
Definition linux_host : host :=
  sample_host "posix" (Returns "box") (fun _ => Returns "127.0.1.1")
    (Returns "box.example.org") (fun _ => Returns sample_statvfs)
    (Raises AttributeError).

(** The same machine when [getfqdn] has nothing better than the host
    name. *)
Definition linux_host_short_fqdn : host :=
  sample_host "posix" (Returns "box") (fun _ => Returns "127.0.1.1")
    (Returns "box") (fun _ => Returns sample_statvfs)
    (Raises AttributeError).

(** The same machine with the name service down and the current
    directory removed. *)
Definition linux_host_degraded : host :=
  sample_host "posix" (Returns "box") (fun _ => Raises gaierror)
    (Returns "box") (fun _ => Raises FileNotFoundError)
    (Raises AttributeError).

(** A Windows machine where the disk query succeeds. *)
Definition windows_host : host :=
  sample_host "nt" (Returns "pc") (fun _ => Returns "192.168.0.2")
    (Returns "pc.example.org") (fun _ => Raises OSError)
    (Returns (fun _ => Returns (Some sample_disk))).

(** A Windows machine where [GetDiskFreeSpaceExW] reports failure: it
    returns zero and stores nothing. *)
Definition windows_host_disk_query_fails : host :=
  sample_host "nt" (Returns "pc") (fun _ => Returns "192.168.0.2")
    (Returns "pc.example.org") (fun _ => Raises OSError)
    (Returns (fun _ => Returns None)).

(** A Linux machine whose host name has 64 characters, the longest the
    kernel allows.  [gethostbyname] encodes its argument with the idna
    codec, which refuses a label above 63 characters with a
    [UnicodeError] before any lookup is made. *)
Definition long_name : string :=
  "aaaaaaaaaaaaaaaaaaaaaaaaaaaaaaaaaaaaaaaaaaaaaaaaaaaaaaaaaaaaaaaa".

Definition linux_host_long_name : host :=
  sample_host "posix" (Returns long_name)
    (fun name => if (63 <? Z.of_nat (String.length name))
                 then Raises UnicodeError else Returns "127.0.1.1")
    (Returns long_name) (fun _ => Returns sample_statvfs)
    (Raises AttributeError).

(** [repr] of a string without quotes, backslashes or control
    characters. *)
Definition repr_plain (s : string) : string := "'" ++ s ++ "'".


(** *** Vocabulary of the further properties *)

(** [100 * b / 1024^k] to the nearest integer, ties to even: the
    hundredths that stand for [b] in the unit of index [k]. *)
Definition scaled_hundredths (b k : Z) : Z :=
  Float64.round_shr (100 * b) (10 * k).

(** The least byte count shown in the unit of index [k]. *)
Definition unit_floor (k : Z) : Z := if k =? 0 then 0 else 1024 ^ k.

(** The unit of index [k]. *)
Definition unit_name (k : Z) : string := nth (Z.to_nat k) unit_names "PB".

(** The non-negative finite float [f] is at least [2^j]. *)
Definition at_least_pow2 (f : Float64.float) (j : Z) : Prop :=
  match f with
  | Float64.Finite false m e => 2 ^ j * 2 ^ Z.max (- e) 0 <= m * 2 ^ Z.max e 0
  | _ => False
  end.

(** One of the three socket calls, reached in the order of the source,
    raises [e], which is no instance of [socket.error]. *)
Definition resolution_escapes (h : host) (e : exn) : Prop :=
  issubclass e OSError = false
  /\ (socket_gethostname h = Raises e
      \/ (exists name,
            socket_gethostname h = Returns name /\
            socket_gethostbyname h name = Raises e)
      \/ (exists name ip,
            socket_gethostname h = Returns name /\
            socket_gethostbyname h name = Returns ip /\
            socket_getfqdn h = Raises e)).

(** The socket calls [get_network_info] makes from an empty cache:
    [gethostname], then [gethostbyname] on the name it returned, then
    [getfqdn], up to and including the first call that raises. *)
Definition socket_calls_in_order (h : host) (cs : list syscall) : Prop :=
  (exists e,
     socket_gethostname h = Raises e /\ cs = [Call_gethostname])
  \/ (exists name e,
        socket_gethostname h = Returns name
        /\ socket_gethostbyname h name = Raises e
        /\ cs = [Call_gethostname; Call_gethostbyname name])
  \/ (exists name ip,
        socket_gethostname h = Returns name
        /\ socket_gethostbyname h name = Returns ip
        /\ cs = [Call_gethostname; Call_gethostbyname name; Call_getfqdn]).

(** The console prints each of [rs]. *)
Definition console_accepts (h : host) (rs : list renderable) : Prop :=
  forall r, In r rs -> rich_console_print h r = Returns tt.

(** The longest beginning of [rs] that the console prints. *)
Fixpoint accepted_prefix (h : host) (rs : list renderable)
  : list renderable :=
  match rs with
  | [] => []
  | r :: rest =>
      match rich_console_print h r with
      | Returns _ => r :: accepted_prefix h rest
      | Raises _ => []
      end
  end.

(** The state in which the script calls [main]. *)
Definition started (h : host) (p : process) : process :=
  if String.eqb (os_name h) "nt" then snd (import_ctypes p) else p.

(** The state in which [main] calls [get_network_info], once the
    three sections before it are printed. *)
Definition before_network_query
  (repr_str : string -> string) (h : host) (p : process) : process :=
  printed
    (printed (printed p [Panel_fit "System Information" "bold blue"])
             [os_tree repr_str h])
    [python_table h].

(** The sections a run of [main] from [p] has to print, in order: the
    three that need no query, the network panel if the network query
    returns, the filesystem section and the time panel if the
    filesystem query returns too. *)
Definition planned_sections
  (repr_str : string -> string) (h : host) (p : process)
  : list renderable :=
  [Panel_fit "System Information" "bold blue";
   os_tree repr_str h;
   python_table h]
  ++ match get_network_info h (before_network_query repr_str h p) with
     | (Returns net, p4) =>
         network_panel net
         :: match get_filesystem_info h (printed p4 [network_panel net]) with
            | (Returns fs, _) =>
                [filesystem_section fs; time_panel repr_str h]
            | (Raises _, _) => []
            end
     | (Raises _, _) => []
     end.

(** *** Hosts with a console that refuses *)






(* ================================================================== *)
(** * Theorems *)

(* ------------------------------------------------------------------ *)
(** ** Rounding *)

Module Float64Facts.
Import Float64.

Lemma round_shr_zero_shift (n : Z) : round_shr n 0 = n.
Proof. reflexivity. Qed.

Lemma round_shr_between (n k : Z) :
  0 <= n -> 0 < k -> n / 2 ^ k <= round_shr n k <= n / 2 ^ k + 1.
Proof.
  intros Hn Hk. unfold round_shr.
  destruct (k <=? 0) eqn:E; [apply Z.leb_le in E; lia|].
  destruct (n mod 2 ^ k ?= 2 ^ (k - 1)); [destruct (Z.even _)| |]; lia.
Qed.

Lemma round_shr_nonneg (n k : Z) : 0 <= n -> 0 <= round_shr n k.
Proof.
  intros Hn. destruct (Z_lt_le_dec 0 k) as [Hk|Hk].
  - pose proof (round_shr_between n k Hn Hk).
    assert (0 <= n / 2 ^ k) by (apply Z.div_pos; [lia|apply Z.pow_pos_nonneg; lia]).
    lia.
  - unfold round_shr. destruct (k <=? 0) eqn:E; [lia|apply Z.leb_gt in E; lia].
Qed.

(** Rounding never passes an integer bound [c]: a quotient below [c]
    rounds to at most [c]. *)
Lemma round_shr_le_bound (n k c : Z) :
  0 <= n -> 0 <= k -> n < c * 2 ^ k -> round_shr n k <= c.
Proof.
  intros Hn Hk Hlt.
  destruct (Z.eq_dec k 0) as [->|Hk0].
  - rewrite round_shr_zero_shift. simpl in Hlt. lia.
  - assert (Hp : 0 < 2 ^ k) by (apply Z.pow_pos_nonneg; lia).
    pose proof (round_shr_between n k Hn ltac:(lia)) as [_ Hup].
    assert (n / 2 ^ k < c) by (apply Z.div_lt_upper_bound; lia).
    lia.
Qed.

(** An exact quotient is not changed by rounding. *)
Lemma round_shr_exact (a k : Z) : 0 <= k -> round_shr (a * 2 ^ k) k = a.
Proof.
  intros Hk. unfold round_shr.
  destruct (k <=? 0) eqn:E.
  - apply Z.leb_le in E. assert (k = 0) by lia. subst. simpl. lia.
  - apply Z.leb_gt in E.
    assert (Hp : 0 < 2 ^ k) by (apply Z.pow_pos_nonneg; lia).
    assert (Hh : 0 < 2 ^ (k - 1)) by (apply Z.pow_pos_nonneg; lia).
    rewrite Z.mod_mul by lia. rewrite Z.div_mul by lia.
    destruct (0 ?= 2 ^ (k - 1)) eqn:C.
    + apply Z.compare_eq in C. lia.
    + reflexivity.
    + apply Z.compare_gt_iff in C. lia.
Qed.

Lemma bit_length_upper (n : Z) : 0 <= n -> n < 2 ^ bit_length n.
Proof.
  intros Hn. unfold bit_length. destruct (n =? 0) eqn:E.
  - apply Z.eqb_eq in E. subst. simpl. lia.
  - apply Z.eqb_neq in E.
    replace (Z.log2 n + 1) with (Z.succ (Z.log2 n)) by lia.
    apply Z.log2_spec. lia.
Qed.

Lemma bit_length_lower (n : Z) : 0 < n -> 2 ^ (bit_length n - 1) <= n.
Proof.
  intros Hn. unfold bit_length. destruct (n =? 0) eqn:E.
  - apply Z.eqb_eq in E. lia.
  - replace (Z.log2 n + 1 - 1) with (Z.log2 n) by lia.
    apply Z.log2_spec. lia.
Qed.

Lemma bit_length_le (n b : Z) : 0 <= n -> 0 <= b -> n < 2 ^ b -> bit_length n <= b.
Proof.
  intros Hn Hb Hlt. unfold bit_length. destruct (n =? 0) eqn:E; [lia|].
  apply Z.eqb_neq in E.
  assert (Z.log2 n < b) by (apply Z.log2_lt_pow2; lia). lia.
Qed.


Lemma round_unfold (s : bool) (n e : Z) :
  round s n e =
  if (0 <=? e + shift n e) && (2 ^ emax <=? round_shr n (shift n e) * 2 ^ (e + shift n e))
  then Inf s else Finite s (round_shr n (shift n e)) (e + shift n e).
Proof. reflexivity. Qed.

(** A rounded mantissa has at most 53 bits, or is [2^53] after a carry. *)
Lemma round_mantissa_le (n e : Z) :
  0 <= n -> round_shr n (shift n e) <= 2 ^ prec.
Proof.
  intros Hn. apply round_shr_le_bound; [lia|unfold shift; lia|].
  rewrite <- Z.pow_add_r by (unfold prec, shift; lia).
  eapply Z.lt_le_trans; [apply bit_length_upper; lia|].
  apply Z.pow_le_mono_r; [lia|]. unfold shift. lia.
Qed.

Lemma pow2_pos (k : Z) : 0 <= k -> 0 < 2 ^ k.
Proof. intros. apply Z.pow_pos_nonneg; lia. Qed.

Lemma pow2_split (a b : Z) : 0 <= a -> 0 <= b -> 2 ^ (a + b) = 2 ^ a * 2 ^ b.
Proof. intros. apply Z.pow_add_r; lia. Qed.

Lemma round_no_overflow_test (n e : Z) :
  0 <= n -> below_overflow n e -> 0 <= e + shift n e ->
  round_shr n (shift n e) * 2 ^ (e + shift n e) < 2 ^ emax.
Proof.
  intros Hn Hb He'. unfold below_overflow in Hb.
  set (k := shift n e) in *.
  assert (Hk0 : 0 <= k) by (unfold k, shift; lia).
  destruct (Z.eq_dec k 0) as [Hkz|Hkz].
  - (* no bit is dropped *)
    rewrite Hkz in *. rewrite round_shr_zero_shift.
    replace (e + 0) with e in * by lia.
    rewrite Z.max_l in Hb by lia. rewrite (Z.max_r (- e) 0) in Hb by lia.
    simpl (2 ^ 0) in Hb.
    assert (0 < 2 ^ (emax - prec - 1)) by (apply pow2_pos; unfold emax, prec; lia).
    lia.
  - assert (Hk : k = bit_length n - prec).
    { unfold k, shift in *. unfold emin in *. lia. }
    assert (Hnpos : 0 < n).
    { destruct (Z.eq_dec n 0) as [->|]; [|lia].
      unfold bit_length, prec in Hk. simpl in Hk. lia. }
    pose proof (bit_length_lower n Hnpos) as Hlow.
    pose proof (bit_length_upper n Hn) as Hup.
    set (B := bit_length n) in *.
    set (P := Z.max e 0) in *. set (Q := Z.max (- e) 0) in *.
    assert (HPQ : P = e + Q) by (unfold P, Q; lia).
    assert (HQ0 : 0 <= Q) by (unfold Q; lia).
    assert (HP0 : 0 <= P) by (unfold P; lia).
    (* the exponent after rounding is at most 971 *)
    assert (Hle : e + k <= emax - prec).
    { destruct (Z_le_gt_dec (e + k) (emax - prec)) as [|Hgt]; [assumption|exfalso].
      assert (Hbig : 2 ^ emax * 2 ^ Q <= n * 2 ^ P).
      { rewrite <- pow2_split by (unfold emax; lia).
        apply Z.le_trans with (2 ^ (B - 1) * 2 ^ P).
        - rewrite <- pow2_split by (unfold prec in *; lia).
          apply Z.pow_le_mono_r; [lia|]. unfold emax, prec in *. lia.
        - apply Z.mul_le_mono_nonneg_r; [pose proof (pow2_pos P HP0); lia|lia]. }
      assert (0 < 2 ^ (emax - prec - 1)) by (apply pow2_pos; unfold emax, prec; lia).
      pose proof (pow2_pos Q HQ0). nia. }
    pose proof (round_mantissa_le n e Hn) as Hm. fold k in Hm.
    pose proof (round_shr_nonneg n k Hn) as Hm0.
    destruct (Z_lt_le_dec (e + k) (emax - prec)) as [Hlt|Hge].
    + (* at most 2^53 * 2^970 *)
      apply Z.le_lt_trans with (2 ^ prec * 2 ^ (emax - prec - 1)).
      * apply Z.mul_le_mono_nonneg; try lia.
        apply Z.pow_le_mono_r; lia.
      * unfold emax, prec. vm_compute. reflexivity.
    + (* exponent 971: the mantissa stays below 2^53 *)
      assert (Hek : e + k = emax - prec) by lia.
      rewrite Hek.
      assert (Hk1 : 0 <= k - 1) by lia.
      assert (Hn2 : n < (2 ^ (prec + 1) - 1) * 2 ^ (k - 1)).
      { assert (Hrhs : (2 ^ emax - 2 ^ (emax - prec - 1)) * 2 ^ Q
                       = (2 ^ (prec + 1) - 1) * 2 ^ (k - 1) * 2 ^ P).
        { rewrite <- Z.mul_assoc. rewrite <- pow2_split by lia.
          replace (2 ^ emax - 2 ^ (emax - prec - 1))
            with ((2 ^ (prec + 1) - 1) * 2 ^ (emax - prec - 1))
            by (unfold emax, prec; vm_compute; reflexivity).
          rewrite <- Z.mul_assoc. f_equal.
          rewrite <- pow2_split by (unfold emax, prec; lia).
          f_equal. unfold emax, prec in *. lia. }
        rewrite Hrhs in Hb.
        pose proof (pow2_pos P HP0).
        apply Z.mul_lt_mono_pos_r in Hb; lia. }
      assert (Hm' : round_shr n k <= 2 ^ prec - 1).
      { unfold round_shr. destruct (k <=? 0) eqn:E; [apply Z.leb_le in E; lia|].
        assert (H2k : 2 ^ k = 2 * 2 ^ (k - 1)).
        { replace k with (1 + (k - 1)) at 1 by lia.
          rewrite pow2_split by lia. reflexivity. }
        pose proof (pow2_pos (k - 1) Hk1) as Hh.
        pose proof (Z.div_mod n (2 ^ k) ltac:(lia)) as Hdm.
        pose proof (Z.mod_pos_bound n (2 ^ k) ltac:(lia)) as Hr.
        set (q := n / 2 ^ k) in *. set (r := n mod 2 ^ k) in *.
        set (h := 2 ^ (k - 1)) in *.
        replace (2 ^ (prec + 1)) with (2 * 2 ^ prec) in Hn2
          by (unfold prec; vm_compute; reflexivity).
        rewrite H2k in Hdm, Hr. clearbody q r h.
        assert (Hq : q <= 2 ^ prec - 1).
        { destruct (Z_le_gt_dec q (2 ^ prec - 1)) as [|Hgt]; [assumption|exfalso].
          assert (h * 2 ^ prec <= h * q)
            by (apply Z.mul_le_mono_nonneg_l; lia).
          lia. }
        destruct (Z.eq_dec q (2 ^ prec - 1)) as [Hqe|Hqn].
        - assert (r < h) by (rewrite Hqe in Hdm; lia).
          assert (Hc : (r ?= h) = Lt) by (apply Z.compare_lt_iff; lia).
          rewrite Hc. lia.
        - destruct (r ?= h); [destruct (Z.even q)| |]; lia. }
      apply Z.le_lt_trans with ((2 ^ prec - 1) * 2 ^ (emax - prec)).
      * apply Z.mul_le_mono_nonneg_r; [|lia].
        pose proof (pow2_pos (emax - prec)). unfold emax, prec in *. lia.
      * unfold emax, prec. vm_compute. reflexivity.
Qed.

(** Below the overflow point, rounding gives a finite number. *)
Lemma round_finite (s : bool) (n e : Z) :
  0 <= n -> below_overflow n e ->
  round s n e = Finite s (round_shr n (shift n e)) (e + shift n e).
Proof.
  intros Hn Hb. rewrite round_unfold.
  destruct (0 <=? e + shift n e) eqn:E; [|reflexivity].
  apply Z.leb_le in E. pose proof (round_no_overflow_test n e Hn Hb E) as H.
  apply Z.leb_gt in H. rewrite H. reflexivity.
Qed.

(** At and above the overflow point rounding gives an infinity: the
    bound of [round_finite] is exact. *)
Lemma round_overflows (s : bool) (n e : Z) :
  0 <= n -> ~ below_overflow n e -> round s n e = Inf s.
Proof.
  intros Hn Hb. unfold below_overflow in Hb. apply Z.nlt_ge in Hb.
  set (P := Z.max e 0) in *. set (Q := Z.max (- e) 0) in *.
  assert (HPQ : P = e + Q) by (unfold P, Q; lia).
  assert (HQ0 : 0 <= Q) by (unfold Q; lia).
  assert (HP0 : 0 <= P) by (unfold P; lia).
  pose proof (pow2_pos P HP0) as HpP. pose proof (pow2_pos Q HQ0) as HpQ.
  assert (HL : 2 ^ emax - 2 ^ (emax - prec - 1)
               = (2 ^ (prec + 1) - 1) * 2 ^ (emax - prec - 1))
    by (unfold emax, prec; vm_compute; reflexivity).
  assert (HLpos : 2 ^ (emax - 1) < 2 ^ emax - 2 ^ (emax - prec - 1))
    by (unfold emax, prec; vm_compute; reflexivity).
  assert (Hnpos : 0 < n) by nia.
  pose proof (bit_length_lower n Hnpos) as Hlow.
  pose proof (bit_length_upper n Hn) as Hup.
  set (B := bit_length n) in *.
  assert (HB0 : 0 < B).
  { destruct (Z_lt_le_dec 0 B); [assumption|].
    assert (2 ^ B <= 2 ^ 0) by (apply Z.pow_le_mono_r; lia).
    change (2 ^ 0) with 1 in *. lia. }
  (* the magnitude needs more than 1023 bits *)
  assert (HBe : emax <= B + e).
  { destruct (Z_le_gt_dec emax (B + e)) as [|Hgt]; [assumption|exfalso].
    assert (n * 2 ^ P < 2 ^ (emax - 1) * 2 ^ Q); [|nia].
    apply Z.lt_le_trans with (2 ^ B * 2 ^ P).
    - apply Z.mul_lt_mono_pos_r; lia.
    - rewrite <- !pow2_split by (unfold emax; lia).
      apply Z.pow_le_mono_r; [lia|]. unfold emax in *. lia. }
  assert (Hk : shift n e = Z.max 0 (B - prec)).
  { unfold shift. fold B. unfold emin, emax, prec in *. lia. }
  rewrite round_unfold. rewrite Hk.
  set (k := Z.max 0 (B - prec)) in *.
  assert (He' : 0 <= e + k) by (unfold k, emax, prec in *; lia).
  assert (Htest : 2 ^ emax <= round_shr n k * 2 ^ (e + k)).
  { destruct (Z_le_gt_dec B prec) as [Hsmall|Hlarge].
    - (* no bit is dropped: the value is a multiple of 2^971 *)
      assert (Hk0 : k = 0) by (unfold k; lia).
      rewrite Hk0. rewrite round_shr_zero_shift. replace (e + 0) with e by lia.
      assert (He : emax - prec <= e) by lia.
      assert (HP : P = e) by (unfold P, emax, prec in *; lia).
      assert (HQ : Q = 0) by (unfold Q, emax, prec in *; lia).
      rewrite HP, HQ in Hb. change (2 ^ 0) with 1 in Hb.
      destruct (Z_le_gt_dec (emax + 1) (B + e)) as [Hbig|Heq].
      + apply Z.le_trans with (2 ^ (B - 1) * 2 ^ e).
        * rewrite <- pow2_split by (unfold emax, prec in *; lia).
          apply Z.pow_le_mono_r; lia.
        * apply Z.mul_le_mono_nonneg_r; [|lia].
          pose proof (pow2_pos e ltac:(unfold emax, prec in *; lia)). lia.
      + exfalso.
        assert (HBe' : B + e = emax) by lia.
        set (t := n * 2 ^ (e - (emax - prec))).
        assert (He1 : 2 ^ e = 2 ^ (e - (emax - prec)) * 2 * 2 ^ (emax - prec - 1)).
        { rewrite <- Z.mul_assoc.
          replace (2 * 2 ^ (emax - prec - 1)) with (2 ^ (emax - prec))
            by (unfold emax, prec; vm_compute; reflexivity).
          rewrite <- pow2_split by (unfold emax, prec in *; lia).
          f_equal. lia. }
        assert (H970 : 0 < 2 ^ (emax - prec - 1))
          by (apply pow2_pos; unfold emax, prec; lia).
        assert (Hge : 2 ^ (prec + 1) - 1 <= 2 * t).
        { unfold t. rewrite HL, He1 in Hb. nia. }
        assert (Hlt : 2 * t < 2 ^ (prec + 1)).
        { unfold t.
          assert (n * 2 ^ e < 2 ^ emax).
          { rewrite <- HBe'. rewrite pow2_split by (unfold emax, prec in *; lia).
            apply Z.mul_lt_mono_pos_r; [|lia].
            apply pow2_pos. unfold emax, prec in *. lia. }
          assert (H1024 : 2 ^ emax = 2 ^ (prec + 1) * 2 ^ (emax - prec - 1))
            by (unfold emax, prec; vm_compute; reflexivity).
          rewrite He1, H1024 in H. nia. }
        change (2 ^ (prec + 1)) with (2 * 2 ^ prec) in *. lia.
    - (* B - 53 bits are dropped *)
      assert (Hk' : k = B - prec) by (unfold k; lia).
      assert (Hkpos : 0 < k) by lia.
      assert (H2k : 2 ^ k = 2 * 2 ^ (k - 1)).
      { replace k with (1 + (k - 1)) at 1 by lia.
        rewrite pow2_split by lia. reflexivity. }
      pose proof (pow2_pos (k - 1) ltac:(lia)) as Hh.
      pose proof (Z.div_mod n (2 ^ k) ltac:(lia)) as Hdm.
      pose proof (Z.mod_pos_bound n (2 ^ k) ltac:(lia)) as Hr.
      pose proof (round_shr_between n k Hn Hkpos) as [Hql _].
      assert (Hq52 : 2 ^ (prec - 1) <= n / 2 ^ k).
      { apply Z.div_le_lower_bound; [lia|].
        rewrite Z.mul_comm. rewrite <- pow2_split by (unfold prec; lia).
        replace (prec - 1 + k) with (B - 1) by lia. assumption. }
      destruct (Z_le_gt_dec (emax + 1) (B + e)) as [Hbig|Heq].
      + apply Z.le_trans with (2 ^ (prec - 1) * 2 ^ (e + k)).
        * rewrite <- pow2_split by (unfold prec; lia).
          apply Z.pow_le_mono_r; [lia|]. unfold emax, prec in *. lia.
        * apply Z.mul_le_mono_nonneg_r; [|lia].
          pose proof (pow2_pos (e + k) He'). lia.
      + assert (HBe' : B + e = emax) by lia.
        assert (Hek : e + k = emax - prec) by lia.
        rewrite Hek.
        assert (Hn2 : (2 ^ (prec + 1) - 1) * 2 ^ (k - 1) <= n).
        { assert (Hrhs : (2 ^ emax - 2 ^ (emax - prec - 1)) * 2 ^ Q
                         = (2 ^ (prec + 1) - 1) * 2 ^ (k - 1) * 2 ^ P).
          { rewrite HL. rewrite <- !Z.mul_assoc. f_equal.
            rewrite <- !pow2_split by (unfold emax, prec in *; lia).
            f_equal. unfold emax, prec in *. lia. }
          rewrite Hrhs in Hb.
          apply Z.mul_le_mono_pos_r in Hb; lia. }
        assert (Hqlt : n / 2 ^ k < 2 ^ prec).
        { apply Z.div_lt_upper_bound; [lia|].
          rewrite Z.mul_comm. rewrite <- pow2_split by (unfold prec; lia).
          replace (prec + k) with B by lia. assumption. }
        assert (Hm : round_shr n k = 2 ^ prec).
        { unfold round_shr. destruct (k <=? 0) eqn:E; [apply Z.leb_le in E; lia|].
          set (q := n / 2 ^ k) in *. set (r := n mod 2 ^ k) in *.
          set (h := 2 ^ (k - 1)) in *.
          change (2 ^ (prec + 1)) with (2 * 2 ^ prec) in Hn2.
          rewrite H2k in Hdm, Hr.
          assert (Hq : q = 2 ^ prec - 1).
          { destruct (Z_le_gt_dec q (2 ^ prec - 2)) as [Hle|Hgt]; [exfalso|lia].
            assert (h * q <= h * (2 ^ prec - 2))
              by (apply Z.mul_le_mono_nonneg_l; lia).
            lia. }
          assert (Hrh : h <= r) by (rewrite Hq in Hdm; lia).
          destruct (r ?= h) eqn:C.
          - rewrite Hq. change (Z.even (2 ^ prec - 1)) with false.
            cbv iota. lia.
          - rewrite Z.compare_lt_iff in C. lia.
          - lia. }
        rewrite Hm. unfold emax, prec. vm_compute. discriminate. }
  apply Z.leb_le in He'. apply Z.leb_le in Htest.
  rewrite He', Htest. reflexivity.
Qed.

End Float64Facts.

Module FormatBytesFacts.
Import Float64 Float64Facts.

Lemma round_regular (n e : Z) :
  0 <= n -> below_overflow n e -> regular (round false n e).
Proof.
  intros Hn Hb. rewrite (round_finite false n e Hn Hb). simpl.
  split; [reflexivity|]. split.
  - split; [apply round_shr_nonneg; assumption|apply round_mantissa_le; assumption].
  - intros He. apply round_no_overflow_test; assumption.
Qed.

Lemma regular_div_below (m e : Z) :
  regular (Finite false m e) -> below_overflow m (e - 10).
Proof.
  intros (_ & [Hm0 Hm] & Hv). unfold below_overflow.
  assert (Hc : 2 ^ prec < 2 ^ emax - 2 ^ (emax - prec - 1))
    by (unfold emax, prec; vm_compute; reflexivity).
  destruct (Z_le_gt_dec 10 e) as [He|He].
  - rewrite Z.max_l by lia. rewrite (Z.max_r (- (e - 10)) 0) by lia.
    simpl (2 ^ 0). specialize (Hv ltac:(lia)).
    replace e with ((e - 10) + 10) in Hv at 1 by lia.
    rewrite pow2_split in Hv by lia.
    pose proof (pow2_pos (e - 10) ltac:(lia)) as Hp.
    assert (Hd : 2 ^ emax = 2 ^ 10 * 2 ^ (emax - 10))
      by (unfold emax; vm_compute; reflexivity).
    assert (Hd' : 2 ^ (emax - 10) < 2 ^ emax - 2 ^ (emax - prec - 1))
      by (unfold emax, prec; vm_compute; reflexivity).
    assert (m * 2 ^ (e - 10) < 2 ^ (emax - 10)); [|lia].
    change (2 ^ 10) with 1024 in *. nia.
  - rewrite Z.max_r by lia. rewrite (Z.max_l (- (e - 10)) 0) by lia.
    simpl (2 ^ 0).
    pose proof (pow2_pos (- (e - 10)) ltac:(lia)) as Hp. nia.
Qed.

Lemma div_pow2_regular (f : float) : regular f -> regular (div_pow2 f 10).
Proof.
  destruct f as [s m e| |]; simpl; try tauto.
  intros H. pose proof H as (-> & [Hm0 _] & _).
  apply round_regular; [assumption|apply regular_div_below; assumption].
Qed.

Lemma hundredths_nonneg (m e : Z) : 0 <= m -> 0 <= hundredths m e.
Proof.
  intros Hm. unfold hundredths. destruct (0 <=? e) eqn:E.
  - apply Z.leb_le in E. pose proof (pow2_pos e E). nia.
  - apply round_shr_nonneg. lia.
Qed.

(** Below 1024 before rounding means at most 1024.00 after it. *)
Lemma hundredths_below_1024 (m e : Z) :
  0 <= m -> ltb_int (Finite false m e) 1024 = true ->
  hundredths m e <= 102400.
Proof.
  intros Hm Hlt. unfold ltb_int in Hlt. unfold hundredths.
  destruct (0 <=? e) eqn:E.
  - apply Z.ltb_lt in Hlt. lia.
  - apply Z.ltb_lt in Hlt. apply Z.leb_gt in E.
    apply round_shr_le_bound; lia.
Qed.

Lemma format_2f_regular (f : float) :
  regular f ->
  exists n, format_2f f = fixed2 n /\ 0 <= n /\
            (ltb_int f 1024 = true -> n <= 102400).
Proof.
  destruct f as [s m e| |]; simpl; try tauto.
  intros (-> & [Hm0 _] & _). exists (hundredths m e).
  split; [reflexivity|]. split; [apply hundredths_nonneg; assumption|].
  apply hundredths_below_1024; assumption.
Qed.

(** The loop on a regular float: it returns, with a unit of the rest of
    the list or PB, and a numeric part of at most 1024.00 unless the
    list was exhausted. *)
Lemma loop_regular (units : list string) :
  forall f, regular f ->
  exists n unit,
    format_bytes_loop units (PyFloat f) = Returns (fixed2 n ++ " " ++ unit)
    /\ In unit (units ++ ["PB"]) /\ 0 <= n
    /\ (n <= 102400 \/ (unit = "PB" /\ ltb_int f 1024 = false)).
Proof.
  induction units as [|u rest IH]; intros f Hf.
  - destruct (format_2f_regular f Hf) as (n & Hs & Hn & Hb).
    exists n, "PB". simpl. unfold fstring_value_unit. simpl. rewrite Hs.
    repeat split; try tauto.
    destruct (ltb_int f 1024); [left; auto|right; auto].
  - simpl. destruct (ltb_int f 1024) eqn:Hlt.
    + destruct (format_2f_regular f Hf) as (n & Hs & Hn & Hb).
      exists n, u. unfold fstring_value_unit. simpl. rewrite Hs.
      repeat split; auto.
    + destruct (IH (div_pow2 f 10) (div_pow2_regular f Hf))
        as (n & unit & Hr & Hin & Hn & Hb).
      exists n, unit. repeat split; auto.
      destruct Hb as [Hb|[Hb _]]; [left; assumption|right; split; auto].
Qed.

(** Float operations raise nothing: on a float, the loop returns. *)
Lemma loop_float_returns (units : list string) :
  forall f, exists s, format_bytes_loop units (PyFloat f) = Returns s.
Proof.
  induction units as [|u rest IH]; intros f; simpl.
  - eexists. reflexivity.
  - destruct (ltb_int f 1024); [eexists; reflexivity|apply IH].
Qed.

Lemma float_limit_eq :
  float_limit = 2 ^ 1024 - 2 ^ 970.
Proof. reflexivity. Qed.

(** [float(b)] for an integer inside the range. *)
Lemma float_of_int_finite (b : Z) :
  - float_limit < b < float_limit ->
  float_of_int b =
  Returns (Finite (b <? 0) (round_shr (Z.abs b) (shift (Z.abs b) 0))
                  (shift (Z.abs b) 0)).
Proof.
  intros Hb. unfold float_of_int.
  rewrite round_finite; [reflexivity|lia|].
  change (Z.abs b * 1 < float_limit * 1). lia.
Qed.

(** [b / 1024] for a non-negative integer inside the range. *)
Lemma int_truediv_regular (b : Z) :
  0 <= b < float_limit * 1024 ->
  exists f, truediv_pow2 (PyInt b) 10 = Returns (PyFloat f) /\ regular f.
Proof.
  intros Hb. unfold truediv_pow2.
  assert (Hbo : below_overflow (Z.abs b) (- (10))).
  { change (Z.abs b * 1 < float_limit * 1024). lia. }
  assert (Hs : (b <? 0) = false) by (apply Z.ltb_ge; lia).
  rewrite Hs.
  pose proof (round_regular (Z.abs b) (- (10)) ltac:(lia) Hbo) as Hr.
  destruct (round false (Z.abs b) (- (10))) as [s m e| |] eqn:E;
    simpl in Hr; try tauto.
  exists (Finite s m e). split; [reflexivity|]. simpl. exact Hr.
Qed.

Lemma small_int_shift (b : Z) : 0 <= b < 2 ^ prec -> shift b 0 = 0.
Proof.
  intros Hb. unfold shift.
  pose proof (bit_length_le b prec ltac:(lia) ltac:(unfold prec; lia) ltac:(lia)).
  unfold emin. lia.
Qed.

(** A whole number of units prints with [.00]. *)
Lemma fixed2_whole (a : Z) : fixed2 (100 * a) = dec a ++ ".00".
Proof.
  unfold fixed2.
  replace (100 * a) with (a * 100) by lia.
  rewrite Z.div_mul by lia. rewrite Z.mod_mul by lia.
  replace ((a * 100) mod 10) with 0.
  - reflexivity.
  - replace (a * 100) with ((a * 10) * 10) by lia. rewrite Z.mod_mul; lia.
Qed.

End FormatBytesFacts.

(* ------------------------------------------------------------------ *)
(** ** [format_bytes] *)

Section FormatBytes.
Import Float64 Float64Facts FormatBytesFacts.

Lemma float_limit_above_prec : 2 ^ prec < float_limit.
Proof. reflexivity. Qed.

Lemma string_append_assoc (s1 s2 s3 : string) :
  ((s1 ++ s2) ++ s3 = s1 ++ (s2 ++ s3))%string.
Proof.
  induction s1 as [|c s1 IH]; simpl; [reflexivity|]. rewrite IH. reflexivity.
Qed.

(** The first turn of the loop. *)
Lemma format_bytes_first_turn (v : pynum) :
  format_bytes v =
  if lt v 1024 then fstring_value_unit v "B"
  else match truediv_pow2 v 10 with
       | Returns v' => format_bytes_loop ["KB"; "MB"; "GB"; "TB"] v'
       | Raises e => Raises e
       end.
Proof. reflexivity. Qed.

(** An integer below 1024 and inside the float range takes the first
    branch of the loop. *)
Lemma format_bytes_small_int (b : Z) :
  - float_limit < b < 1024 ->
  format_bytes (PyInt b) =
  Returns (format_2f (Finite (b <? 0)
                        (round_shr (Z.abs b) (shift (Z.abs b) 0))
                        (shift (Z.abs b) 0)) ++ " B").
Proof.
  intros Hb. rewrite format_bytes_first_turn.
  assert (Hlt : lt (PyInt b) 1024 = true) by (apply Z.ltb_lt; lia).
  rewrite Hlt. unfold fstring_value_unit, format_spec_2f.
  pose proof float_limit_above_prec. unfold prec in *.
  rewrite float_of_int_finite by lia. reflexivity.
Qed.

(** Inside the float range [format_bytes] returns. *)
Lemma format_bytes_returns (v : pynum) :
  in_float_range v -> exists s, format_bytes v = Returns s.
Proof.
  destruct v as [b|f]; cbn [in_float_range]; intros Hr.
  - destruct (Z_lt_le_dec b 1024) as [Hs|Hl].
    + rewrite format_bytes_small_int by lia. eexists. reflexivity.
    + rewrite format_bytes_first_turn.
      assert (Hlt : lt (PyInt b) 1024 = false) by (apply Z.ltb_ge; lia).
      rewrite Hlt.
      destruct (int_truediv_regular b ltac:(lia)) as (f & -> & Hf).
      apply loop_float_returns.
  - apply loop_float_returns.
Qed.

(** Outside the float range an integer raises [OverflowError]: in
    [float()] when it is below 1024, in the first division otherwise. *)
Lemma format_bytes_overflows (b : Z) :
  b <= - float_limit \/ float_limit * 1024 <= b ->
  format_bytes (PyInt b) = Raises OverflowError.
Proof.
  intros Hb. rewrite format_bytes_first_turn.
  pose proof float_limit_above_prec as Hp. unfold prec in Hp.
  assert (H53 : 1024 < 2 ^ 53) by reflexivity.
  destruct Hb as [Hlow|Hhigh].
  - assert (Hlt : lt (PyInt b) 1024 = true) by (apply Z.ltb_lt; lia).
    rewrite Hlt. unfold fstring_value_unit, format_spec_2f, float_of_int.
    rewrite round_overflows; [reflexivity|lia|].
    change (~ Z.abs b * 1 < float_limit * 1). lia.
  - assert (Hlt : lt (PyInt b) 1024 = false) by (apply Z.ltb_ge; lia).
    rewrite Hlt. unfold truediv_pow2.
    rewrite round_overflows; [reflexivity|lia|].
    change (~ Z.abs b * 1 < float_limit * 1024). lia.
Qed.

(** The float range is exactly where [format_bytes] returns. *)
Lemma format_bytes_returns_iff (v : pynum) :
  in_float_range v <-> exists s, format_bytes v = Returns s.
Proof.
  split; [apply format_bytes_returns|].
  destruct v as [b|f]; cbn [in_float_range]; [|trivial].
  intros (s & Hs).
  destruct (Z_le_gt_dec b (- float_limit)) as [Hlow|Hlow].
  - rewrite format_bytes_overflows in Hs by (left; assumption). discriminate Hs.
  - destruct (Z_le_gt_dec (float_limit * 1024) b) as [Hhigh|Hhigh].
    + rewrite format_bytes_overflows in Hs by (right; assumption).
      discriminate Hs.
    + lia.
Qed.

End FormatBytes.

(** C1 (as amended).  For every non-negative integer byte count [b]
    below [(2^1024 - 2^970) * 1024], [format_bytes b] returns a string
    made of a numeric part with two decimals, a space and one of the
    units B, KB, MB, GB, TB, PB; unless the unit is PB the numeric part
    is at most 1024.00. *)
Theorem format_bytes_unit_two_decimals_bound (b : Z) :
  0 <= b < float_limit * 1024 ->
  exists n unit,
    format_bytes (PyInt b) = Returns (fixed2 n ++ " " ++ unit)
    /\ In unit unit_names
    /\ 0 <= n
    /\ (unit <> "PB" -> n <= 102400).
Proof.
  intros Hb.
  destruct (Z_lt_le_dec b 1024) as [Hs|Hl].
  - exists (100 * b), "B".
    pose proof FormatBytesFacts.float_limit_eq as Hfl.
    assert (0 < float_limit) by (rewrite Hfl; reflexivity).
    rewrite format_bytes_small_int by lia.
    rewrite FormatBytesFacts.small_int_shift
      by (rewrite Z.abs_eq by lia; unfold Float64.prec; lia).
    rewrite Float64Facts.round_shr_zero_shift.
    rewrite Z.abs_eq by lia.
    assert (Hn : (b <? 0) = false) by (apply Z.ltb_ge; lia).
    rewrite Hn. unfold Float64.format_2f, Float64.hundredths.
    change (0 <=? 0) with true. cbv iota.
    replace (100 * b * 2 ^ 0) with (100 * b) by (change (2 ^ 0) with 1; lia).
    repeat split.
    + unfold unit_names, loop_units. simpl. auto.
    + lia.
    + lia.
  - rewrite format_bytes_first_turn.
    assert (Hlt : lt (PyInt b) 1024 = false) by (apply Z.ltb_ge; lia).
    rewrite Hlt.
    destruct (FormatBytesFacts.int_truediv_regular b ltac:(lia))
      as (f & -> & Hf).
    destruct (FormatBytesFacts.loop_regular ["KB"; "MB"; "GB"; "TB"] f Hf)
      as (n & unit & Hr & Hin & Hn & Hbound).
    exists n, unit. repeat split; auto.
    + unfold unit_names, loop_units. simpl in Hin |- *. tauto.
    + intros Hne. destruct Hbound as [Hle|[Heq _]]; [assumption|contradiction].
Qed.

Lemma format_bytes_unit_two_decimals_bound_witness :
  0 <= 1536 < float_limit * 1024 /\
  exists n unit,
    format_bytes (PyInt 1536) = Returns (fixed2 n ++ " " ++ unit)
    /\ In unit unit_names /\ 0 <= n /\ (unit <> "PB" -> n <= 102400).
Proof.
  split; [split; [lia|reflexivity]|].
  apply (format_bytes_unit_two_decimals_bound 1536).
  split; [lia|reflexivity].
Defined.

(** C1 as stated fails twice: one byte below 1024^2 the numeric part is
    printed as 1024.00 with unit KB, and a byte count whose quotient by
    1024 exceeds the float range raises [OverflowError]. *)
Lemma format_bytes_prints_1024_below_PB :
  format_bytes (PyInt 1048575) = Returns "1024.00 KB"
  /\ format_bytes (PyInt 1048575) = Returns (fixed2 102400 ++ " " ++ "KB")
  /\ format_bytes (PyInt (2 ^ 1100)) = Raises OverflowError.
Proof. repeat split; vm_compute; reflexivity. Qed.

(** C2.  The six fixed points of [format_bytes]; from 1024^5 on the
    value stays in PB. *)
Theorem format_bytes_fixed_points :
  format_bytes (PyInt 0) = Returns "0.00 B"
  /\ format_bytes (PyInt 1024) = Returns "1.00 KB"
  /\ format_bytes (PyInt 1536) = Returns "1.50 KB"
  /\ format_bytes (PyInt (1024 ^ 4)) = Returns "1.00 TB"
  /\ format_bytes (PyInt (1024 ^ 5)) = Returns "1.00 PB"
  /\ format_bytes (PyInt (1024 ^ 6)) = Returns "1024.00 PB".
Proof. repeat split; vm_compute; reflexivity. Qed.

(** C10 (as amended).  [format_bytes] checks no precondition and
    returns without error on every float and on every integer inside
    the float range.  An input below 1024, negative values included,
    leaves through the first test with [f"{b:.2f} B"]; for an integer
    of magnitude below [2^53] that is its sign, its decimal digits and
    [.00 B]. *)
Theorem format_bytes_total_in_float_range (v : pynum) :
  in_float_range v ->
  (exists s, format_bytes v = Returns s)
  /\ (lt v 1024 = true ->
      exists s, format_spec_2f v = Returns s
                /\ format_bytes v = Returns (s ++ " B"))
  /\ (forall b, v = PyInt b -> - 2 ^ 53 < b < 1024 ->
      format_bytes v =
      Returns ((if b <? 0 then "-" else "") ++ dec (Z.abs b) ++ ".00" ++ " B")).
Proof.
  intros Hr. split; [apply format_bytes_returns; assumption|]. split.
  - intros Hlt. rewrite format_bytes_first_turn.
    rewrite Hlt. unfold fstring_value_unit.
    destruct v as [b|f].
    + cbn [in_float_range lt] in Hr, Hlt. apply Z.ltb_lt in Hlt.
      pose proof FormatBytesFacts.float_limit_eq as Hfl.
      assert (1024 < float_limit) by (rewrite Hfl; reflexivity).
      unfold format_spec_2f.
      rewrite FormatBytesFacts.float_of_int_finite by lia.
      eexists. split; reflexivity.
    + simpl. eexists. split; reflexivity.
  - intros b -> Hb.
    pose proof float_limit_above_prec as Hp. unfold Float64.prec in Hp.
    rewrite format_bytes_small_int by lia.
    rewrite FormatBytesFacts.small_int_shift by (unfold Float64.prec; lia).
    rewrite Float64Facts.round_shr_zero_shift.
    unfold Float64.format_2f, Float64.hundredths.
    change (0 <=? 0) with true. cbv iota.
    replace (100 * Z.abs b * 2 ^ 0) with (100 * Z.abs b)
      by (change (2 ^ 0) with 1; lia).
    rewrite FormatBytesFacts.fixed2_whole.
    rewrite !string_append_assoc. reflexivity.
Qed.

Lemma format_bytes_total_in_float_range_witness :
  in_float_range (PyInt (-5))
  /\ (exists s, format_bytes (PyInt (-5)) = Returns s)
  /\ (lt (PyInt (-5)) 1024 = true ->
      exists s, format_spec_2f (PyInt (-5)) = Returns s
                /\ format_bytes (PyInt (-5)) = Returns (s ++ " B"))
  /\ (forall b, PyInt (-5) = PyInt b -> - 2 ^ 53 < b < 1024 ->
      format_bytes (PyInt (-5)) =
      Returns ((if b <? 0 then "-" else "") ++ dec (Z.abs b) ++ ".00" ++ " B")).
Proof.
  assert (Hr : in_float_range (PyInt (-5))) by (split; reflexivity).
  split; [exact Hr|].
  apply (format_bytes_total_in_float_range (PyInt (-5)) Hr).
Defined.

(** C10 as stated fails outside the float range: an integer at or
    below [-2^1024] is below 1024, and formatting it raises
    [OverflowError]; so does dividing an integer of [2^1034] or more. *)
Lemma format_bytes_raises_on_huge_int :
  lt (PyInt (- 2 ^ 1024)) 1024 = true
  /\ format_bytes (PyInt (- 2 ^ 1024)) = Raises OverflowError
  /\ format_bytes (PyInt (2 ^ 1034)) = Raises OverflowError.
Proof. repeat split; vm_compute; reflexivity. Qed.

(* ------------------------------------------------------------------ *)
(** ** [get_network_info] *)

(** [except socket.error] catches exactly the instances of [OSError]. *)
Lemma catches_socket_error (e : exn) :
  catches [OSError] e = issubclass e OSError.
Proof. unfold catches. simpl. apply orb_false_r. Qed.



(** The body of [get_network_info] when resolution fails: the handler
    runs, whichever call raised. *)
Lemma get_network_info_body_fails (h : host) (p : process) :
  resolution_fails h ->
  exists cs, get_network_info_body h p = (Returns unavailable, logged p cs).
Proof.
  unfold get_network_info_body, try_except, bind, call, ret.
  intros [(e & H1 & He)|[(name & e & H1 & H2 & He)|(name & ip & e & H1 & H2 & H3 & He)]].
  - rewrite H1. rewrite catches_socket_error, He.
    exists [Call_gethostname]. reflexivity.
  - rewrite H1. cbv beta iota. rewrite H2.
    rewrite catches_socket_error, He.
    exists [Call_gethostname; Call_gethostbyname name].
    unfold logged. cbn [stdout network_cache ctypes_imported calls].
    rewrite <- app_assoc. reflexivity.
  - rewrite H1. cbv beta iota. rewrite H2. cbv beta iota. rewrite H3.
    rewrite catches_socket_error, He.
    exists [Call_gethostname; Call_gethostbyname name; Call_getfqdn].
    unfold logged. cbn [stdout network_cache ctypes_imported calls].
    rewrite <- !app_assoc. reflexivity.
Qed.

(** The body when the three calls return. *)
Lemma get_network_info_body_resolves (h : host) (p : process)
      (name ip full : string) :
  socket_gethostname h = Returns name ->
  socket_gethostbyname h name = Returns ip ->
  socket_getfqdn h = Returns full ->
  get_network_info_body h p =
  (Returns {| hostname := Some name; ip_address := Some ip;
              fqdn := if String.eqb full name then None else Some full |},
   logged p [Call_gethostname; Call_gethostbyname name; Call_getfqdn]).
Proof.
  intros H1 H2 H3.
  unfold get_network_info_body, try_except, bind, call, ret.
  rewrite H1. cbv beta iota. rewrite H2. cbv beta iota. rewrite H3.
  cbv beta iota. unfold logged.
  cbn [stdout network_cache ctypes_imported calls].
  rewrite <- !app_assoc. reflexivity.
Qed.


(** C3.  When local name resolution fails with a socket error, the
    call returns (it raises nothing) and the three fields of the record
    are [None] together. *)
Theorem get_network_info_all_unavailable_on_failure (h : host) (p : process) :
  network_cache p = None ->
  resolution_fails h ->
  exists p',
    get_network_info h p =
    (Returns {| hostname := None; ip_address := None; fqdn := None |}, p').
Proof.
  intros Hc Hf.
  destruct (get_network_info_body_fails h p Hf) as (cs & Hb).
  unfold get_network_info, lru_cache. rewrite Hc, Hb.
  eexists. reflexivity.
Qed.

Lemma get_network_info_all_unavailable_on_failure_witness :
  network_cache initial_process = None
  /\ resolution_fails linux_host_degraded
  /\ exists p',
       get_network_info linux_host_degraded initial_process =
       (Returns {| hostname := None; ip_address := None; fqdn := None |}, p').
Proof.
  assert (Hf : resolution_fails linux_host_degraded).
  { right. left. exists "box", gaierror. repeat split. }
  split; [reflexivity|]. split; [exact Hf|].
  apply (get_network_info_all_unavailable_on_failure
           linux_host_degraded initial_process eq_refl Hf).
Defined.

(** C4.  Once a call of [get_network_info] has returned, the next call
    returns the same record whatever the host would answer by then, and
    leaves the process as it was: no socket call is made again. *)
Theorem get_network_info_memoized (h1 h2 : host) (p p1 : process)
        (r : network_info) :
  get_network_info h1 p = (Returns r, p1) ->
  get_network_info h2 p1 = (Returns r, p1)
  /\ calls (snd (get_network_info h2 p1)) = calls p1.
Proof.
  intros H1.
  assert (Hc : network_cache p1 = Some r).
  { unfold get_network_info, lru_cache in H1.
    destruct (network_cache p) as [r0|] eqn:Hp.
    - inversion H1; subst. assumption.
    - destruct (get_network_info_body h1 p) as [[r0|e] p0]; inversion H1.
      reflexivity. }
  assert (H2 : get_network_info h2 p1 = (Returns r, p1)).
  { unfold get_network_info, lru_cache. rewrite Hc. reflexivity. }
  split; [exact H2|]. rewrite H2. reflexivity.
Qed.

Lemma get_network_info_memoized_witness :
  let first := get_network_info linux_host initial_process in
  exists r p1,
    first = (Returns r, p1)
    /\ get_network_info linux_host_degraded p1 = (Returns r, p1)
    /\ calls (snd (get_network_info linux_host_degraded p1)) = calls p1.
Proof.
  cbv zeta.
  exists {| hostname := Some "box"; ip_address := Some "127.0.1.1";
            fqdn := Some "box.example.org" |}.
  eexists. split; [reflexivity|].
  apply (get_network_info_memoized linux_host linux_host_degraded
           initial_process).
  reflexivity.
Defined.

(** C9.  When the three socket calls return and the fully-qualified
    name equals the host name, the record has its host name and address
    and no FQDN, and the FQDN line of the panel reads "Could not be
    determined". *)
Theorem get_network_info_fqdn_equal_to_hostname (h : host) (p : process)
        (name ip : string) :
  network_cache p = None ->
  socket_gethostname h = Returns name ->
  socket_gethostbyname h name = Returns ip ->
  socket_getfqdn h = Returns name ->
  let r := {| hostname := Some name; ip_address := Some ip; fqdn := None |} in
  (exists p', get_network_info h p = (Returns r, p'))
  /\ network_panel r =
     Panel ("[cyan]Hostname:[/cyan] "
              ++ py_or (Some name) could_not_be_determined ++ nl
            ++ "[cyan]IP Address:[/cyan] "
              ++ py_or (Some ip) could_not_be_determined ++ nl
            ++ "[cyan]FQDN:[/cyan] " ++ "[red]Could not be determined[/red]")
           "🌐 Network Information" "blue".
Proof.
  intros Hc H1 H2 H3 r. split; [|reflexivity].
  unfold get_network_info, lru_cache. rewrite Hc.
  rewrite (get_network_info_body_resolves h p name ip name H1 H2 H3).
  rewrite String.eqb_refl. eexists. reflexivity.
Qed.

Lemma get_network_info_fqdn_equal_to_hostname_witness :
  network_cache initial_process = None
  /\ socket_gethostname linux_host_short_fqdn = Returns "box"
  /\ socket_gethostbyname linux_host_short_fqdn "box" = Returns "127.0.1.1"
  /\ socket_getfqdn linux_host_short_fqdn = Returns "box"
  /\ let r := {| hostname := Some "box"; ip_address := Some "127.0.1.1";
                 fqdn := None |} in
     (exists p', get_network_info linux_host_short_fqdn initial_process
                 = (Returns r, p'))
     /\ network_panel r =
        Panel ("[cyan]Hostname:[/cyan] "
                 ++ py_or (Some "box") could_not_be_determined ++ nl
               ++ "[cyan]IP Address:[/cyan] "
                 ++ py_or (Some "127.0.1.1") could_not_be_determined ++ nl
               ++ "[cyan]FQDN:[/cyan] " ++ "[red]Could not be determined[/red]")
              "🌐 Network Information" "blue".
Proof.
  repeat (split; [reflexivity|]).
  apply (get_network_info_fqdn_equal_to_hostname linux_host_short_fqdn
           initial_process "box" "127.0.1.1");
    reflexivity.
Defined.

(* ------------------------------------------------------------------ *)
(** ** [get_filesystem_info] *)

Lemma float_limit_above_128 : 2 ^ 128 < float_limit.
Proof. reflexivity. Qed.

(** Products and differences of 64-bit counters are inside the float
    range, so formatting them returns. *)
Lemma format_bytes_counter (z : Z) :
  - 2 ^ 128 < z < 2 ^ 128 -> exists s, format_bytes (PyInt z) = Returns s.
Proof.
  intros Hz. apply format_bytes_returns. cbn [in_float_range].
  pose proof float_limit_above_128. lia.
Qed.

Lemma mul_unsigned_long (a b : Z) :
  unsigned_long a -> unsigned_long b -> 0 <= a * b < 2 ^ 128.
Proof.
  unfold unsigned_long. intros Ha Hb.
  change (2 ^ 128) with (2 ^ 64 * 2 ^ 64). nia.
Qed.

Lemma c_ulonglong_value_range (z : Z) : unsigned_long (c_ulonglong_value z).
Proof. unfold unsigned_long, c_ulonglong_value. apply Z.mod_pos_bound. lia. Qed.

Lemma os_name_posix (h : host) :
  os_name h = "posix" -> String.eqb (os_name h) "posix" = true.
Proof. intros ->. reflexivity. Qed.

Lemma os_name_nt (h : host) :
  os_name h = "nt" ->
  String.eqb (os_name h) "posix" = false /\ String.eqb (os_name h) "nt" = true.
Proof. intros ->. split; reflexivity. Qed.

(** The POSIX path when [os.statvfs] returns. *)
Lemma get_filesystem_info_posix_returns (h : host) (p : process)
      (st : statvfs_result) :
  os_name h = "posix" ->
  os_statvfs h "." = Returns st ->
  unsigned_long_fields st ->
  exists s_total s_available s_used,
    format_bytes (PyInt (f_frsize st * f_blocks st)) = Returns s_total
    /\ format_bytes (PyInt (f_frsize st * f_bavail st)) = Returns s_available
    /\ format_bytes (PyInt (f_frsize st * f_blocks st
                            - f_frsize st * f_bavail st)) = Returns s_used
    /\ get_filesystem_info h p =
       (Returns (Some {| total := s_total; available := s_available;
                         used := s_used; type := Some (f_flag st) |}),
        logged p [Call_statvfs "."]).
Proof.
  intros Hos Hst (_ & Hfr & Hbl & _ & Hav & _).
  pose proof (mul_unsigned_long _ _ Hfr Hbl) as Ht.
  pose proof (mul_unsigned_long _ _ Hfr Hav) as Ha.
  destruct (format_bytes_counter (f_frsize st * f_blocks st) ltac:(lia))
    as (s_total & Et).
  destruct (format_bytes_counter (f_frsize st * f_bavail st) ltac:(lia))
    as (s_available & Ea).
  destruct (format_bytes_counter
              (f_frsize st * f_blocks st - f_frsize st * f_bavail st)
              ltac:(lia)) as (s_used & Eu).
  exists s_total, s_available, s_used. repeat split; try assumption.
  unfold get_filesystem_info. rewrite (os_name_posix h Hos).
  unfold try_except, bind, call, lift, ret. rewrite Hst. cbv beta iota zeta.
  rewrite Et. cbv beta iota. rewrite Ea. cbv beta iota. rewrite Eu.
  reflexivity.
Qed.

(** The Windows path when the lookup, [os.getcwd] and the call return:
    the record is built from what the call stored, or from the zeros
    the buffers were created with when it stored nothing. *)
Lemma get_filesystem_info_nt_returns (h : host) (p : process)
      (api : string -> outcome (option disk_free_space)) (cwd : string)
      (stored : option disk_free_space) :
  os_name h = "nt" ->
  ctypes_imported p = true ->
  kernel32_GetDiskFreeSpaceExW h = Returns api ->
  os_getcwd h = Returns cwd ->
  api cwd = Returns stored ->
  let total_bytes :=
    c_ulonglong_value match stored with
                      | Some d => lpTotalNumberOfBytes d
                      | None => 0
                      end in
  let free_bytes :=
    c_ulonglong_value match stored with
                      | Some d => lpFreeBytesAvailableToCaller d
                      | None => 0
                      end in
  exists s_total s_available s_used,
    format_bytes (PyInt total_bytes) = Returns s_total
    /\ format_bytes (PyInt free_bytes) = Returns s_available
    /\ format_bytes (PyInt (total_bytes - free_bytes)) = Returns s_used
    /\ get_filesystem_info h p =
       (Returns (Some {| total := s_total; available := s_available;
                         used := s_used; type := None |}),
        logged p [Call_getcwd; Call_GetDiskFreeSpaceExW cwd]).
Proof.
  intros Hos Hct Hapi Hcwd Hcall total_bytes free_bytes.
  pose proof (c_ulonglong_value_range
                match stored with
                | Some d => lpTotalNumberOfBytes d
                | None => 0
                end) as Ht.
  pose proof (c_ulonglong_value_range
                match stored with
                | Some d => lpFreeBytesAvailableToCaller d
                | None => 0
                end) as Hf.
  fold total_bytes in Ht. fold free_bytes in Hf. unfold unsigned_long in Ht, Hf.
  assert (H128 : 2 ^ 64 < 2 ^ 128) by reflexivity.
  destruct (format_bytes_counter total_bytes ltac:(lia)) as (s_total & Et).
  destruct (format_bytes_counter free_bytes ltac:(lia)) as (s_available & Ea).
  destruct (format_bytes_counter (total_bytes - free_bytes) ltac:(lia))
    as (s_used & Eu).
  exists s_total, s_available, s_used. repeat split; try assumption.
  unfold get_filesystem_info. destruct (os_name_nt h Hos) as [-> ->].
  unfold try_except, bind, name_ctypes, call, lift, ret.
  rewrite Hct. cbv beta iota zeta. rewrite Hapi. cbv beta iota.
  rewrite Hcwd. cbv beta iota. rewrite Hcall. cbv beta iota.
  fold total_bytes free_bytes.
  rewrite Et. cbv beta iota. rewrite Ea. cbv beta iota. rewrite Eu.
  cbv beta iota. unfold logged.
  cbn [stdout network_cache ctypes_imported calls].
  rewrite <- app_assoc. reflexivity.
Qed.




(** C5.  On a POSIX host where [os.statvfs(".")] returns, the record
    holds [total = f_frsize * f_blocks], [available = f_frsize *
    f_bavail] and [used = total - available], each in the form
    [format_bytes] gives it, and ['type'] is the integer [f_flag]. *)
Theorem posix_query_reports_frsize_times_blocks (h : host) (p : process)
        (st : statvfs_result) :
  os_name h = "posix" ->
  os_statvfs h "." = Returns st ->
  unsigned_long_fields st ->
  let total_bytes := f_frsize st * f_blocks st in
  let available_bytes := f_frsize st * f_bavail st in
  let used_bytes := total_bytes - available_bytes in
  exists s_total s_available s_used,
    format_bytes (PyInt total_bytes) = Returns s_total
    /\ format_bytes (PyInt available_bytes) = Returns s_available
    /\ format_bytes (PyInt used_bytes) = Returns s_used
    /\ get_filesystem_info h p =
       (Returns (Some {| total := s_total; available := s_available;
                         used := s_used; type := Some (f_flag st) |}),
        logged p [Call_statvfs "."]).
Proof.
  intros Hos Hst Hul. cbv zeta.
  apply get_filesystem_info_posix_returns; assumption.
Qed.

Lemma sample_statvfs_unsigned_long : unsigned_long_fields sample_statvfs.
Proof. unfold unsigned_long_fields, unsigned_long. simpl. lia. Qed.

Lemma posix_query_reports_frsize_times_blocks_witness :
  os_name linux_host = "posix"
  /\ os_statvfs linux_host "." = Returns sample_statvfs
  /\ unsigned_long_fields sample_statvfs
  /\ exists s_total s_available s_used,
       format_bytes (PyInt (4096 * 1000)) = Returns s_total
       /\ format_bytes (PyInt (4096 * 250)) = Returns s_available
       /\ format_bytes (PyInt (4096 * 1000 - 4096 * 250)) = Returns s_used
       /\ get_filesystem_info linux_host initial_process =
          (Returns (Some {| total := s_total; available := s_available;
                            used := s_used; type := Some 4096 |}),
           logged initial_process [Call_statvfs "."]).
Proof.
  split; [reflexivity|]. split; [reflexivity|].
  split; [exact sample_statvfs_unsigned_long|].
  apply (posix_query_reports_frsize_times_blocks linux_host initial_process sample_statvfs
           eq_refl eq_refl sample_statvfs_unsigned_long).
Defined.

(** C7.  On a Windows host with [ctypes] imported, when the lookup of
    the API, [os.getcwd()] and the call return and the call stored its
    three counts, [get_filesystem_info] has called the API with the
    current working directory and returns total, available (the free
    bytes) and [used = total - free], each formatted, without a
    ['type'] key. *)
Theorem windows_query_reports_total_minus_free (h : host) (p : process)
        (api : string -> outcome (option disk_free_space)) (cwd : string)
        (d : disk_free_space) :
  os_name h = "nt" ->
  ctypes_imported p = true ->
  kernel32_GetDiskFreeSpaceExW h = Returns api ->
  os_getcwd h = Returns cwd ->
  api cwd = Returns (Some d) ->
  let total_bytes := c_ulonglong_value (lpTotalNumberOfBytes d) in
  let free_bytes := c_ulonglong_value (lpFreeBytesAvailableToCaller d) in
  exists s_total s_available s_used p',
    format_bytes (PyInt total_bytes) = Returns s_total
    /\ format_bytes (PyInt free_bytes) = Returns s_available
    /\ format_bytes (PyInt (total_bytes - free_bytes)) = Returns s_used
    /\ get_filesystem_info h p =
       (Returns (Some {| total := s_total; available := s_available;
                         used := s_used; type := None |}), p')
    /\ calls p' = (calls p ++ [Call_getcwd; Call_GetDiskFreeSpaceExW cwd])%list.
Proof.
  intros Hos Hct Hapi Hcwd Hcall. cbv zeta.
  destruct (get_filesystem_info_nt_returns h p api cwd (Some d)
              Hos Hct Hapi Hcwd Hcall) as (a & b & c & Ha & Hb & Hc & Hr).
  exists a, b, c. eexists. repeat split; try eassumption. reflexivity.
Qed.

Lemma windows_query_reports_total_minus_free_witness :
  let p := snd (import_ctypes initial_process) in
  os_name windows_host = "nt"
  /\ ctypes_imported p = true
  /\ os_getcwd windows_host = Returns "C:\work"
  /\ exists s_total s_available s_used p',
       format_bytes (PyInt (c_ulonglong_value 4096000)) = Returns s_total
       /\ format_bytes (PyInt (c_ulonglong_value 1024000)) = Returns s_available
       /\ format_bytes (PyInt (c_ulonglong_value 4096000
                               - c_ulonglong_value 1024000)) = Returns s_used
       /\ get_filesystem_info windows_host p =
          (Returns (Some {| total := s_total; available := s_available;
                            used := s_used; type := None |}), p')
       /\ calls p' =
          (calls p ++ [Call_getcwd; Call_GetDiskFreeSpaceExW "C:\work"])%list.
Proof.
  cbv zeta. repeat (split; [reflexivity|]).
  apply (windows_query_reports_total_minus_free windows_host
           (snd (import_ctypes initial_process))
           (fun _ => Returns (Some sample_disk)) "C:\work" sample_disk);
    reflexivity.
Defined.

(** C6, at the input where it fails.  On a Windows host whose
    [GetDiskFreeSpaceExW] reports failure (it returns zero and stores
    nothing), [get_filesystem_info] does not return [None]: it returns
    a record of three "0.00 B", and the script prints a table of them
    where the failure message was due. *)
Theorem filesystem_failure_unnoticed_on_windows :
  let h := windows_host_disk_query_fails in
  let p := snd (import_ctypes initial_process) in
  let zeros := {| total := "0.00 B"; available := "0.00 B";
                  used := "0.00 B"; type := None |} in
  (exists api, kernel32_GetDiskFreeSpaceExW h = Returns api
               /\ api "C:\work" = Returns None)
  /\ fst (get_filesystem_info h p) = Returns (Some zeros)
  /\ filesystem_section (Some zeros) =
     Table "💾 Filesystem Information" "ROUNDED"
       [("Metric", "cyan"); ("Value", "green")]
       [["Total Size"; "0.00 B"]; ["Available Space"; "0.00 B"];
        ["Used Space"; "0.00 B"]]
  /\ In (filesystem_section (Some zeros))
        (stdout (snd (script repr_plain h initial_process)))
  /\ ~ In (Markup could_not_get_filesystem)
          (stdout (snd (script repr_plain h initial_process))).
Proof.
  cbv zeta. split; [eexists; split; reflexivity|].
  split; [vm_compute; reflexivity|]. split; [reflexivity|]. split.
  - vm_compute. do 4 right. left. reflexivity.
  - vm_compute. intros H.
    repeat (destruct H as [H|H]; [discriminate H|]). exact H.
Qed.

(* ------------------------------------------------------------------ *)
(** ** [main] and the script *)


Lemma console_accepts_cons (h : host) (r : renderable)
      (rs : list renderable) :
  console_accepts h (r :: rs) ->
  rich_console_print h r = Returns tt /\ console_accepts h rs.
Proof.
  intros H. split.
  - apply H. left. reflexivity.
  - intros r' Hr'. apply H. right. exact Hr'.
Qed.



(** The script is [main], run in the state the [__main__] block leaves. *)
Lemma script_starts (repr_str : string -> string) (h : host) (p : process) :
  script repr_str h p = main repr_str h (started h p).
Proof.
  unfold script, started, bind.
  destruct (String.eqb (os_name h) "nt"); reflexivity.
Qed.

Lemma started_stdout (h : host) (p : process) :
  stdout (started h p) = stdout p.
Proof. unfold started. destruct (String.eqb (os_name h) "nt"); reflexivity. Qed.

Lemma started_network_cache (h : host) (p : process) :
  network_cache (started h p) = network_cache p.
Proof. unfold started. destruct (String.eqb (os_name h) "nt"); reflexivity. Qed.













(* ------------------------------------------------------------------ *)
(** ** The rounding model against the Standard Library's IEEE-754 *)

Module SpecFloatAgreement.
Import Float64 Float64Facts.

(** [round_shr] is a nearest integer: off by at most half a unit. *)
Lemma round_shr_nearest (n k : Z) :
  0 <= n -> 0 < k ->
  2 * Z.abs (round_shr n k * 2 ^ k - n) <= 2 ^ k.
Proof.
  intros Hn Hk. unfold round_shr.
  destruct (k <=? 0) eqn:E; [apply Z.leb_le in E; lia|].
  assert (H2k : 2 ^ k = 2 * 2 ^ (k - 1)).
  { replace k with (1 + (k - 1)) at 1 by lia.
    rewrite pow2_split by lia. reflexivity. }
  pose proof (pow2_pos (k - 1) ltac:(lia)) as Hh.
  pose proof (Z.div_mod n (2 ^ k) ltac:(lia)) as Hdm.
  pose proof (Z.mod_pos_bound n (2 ^ k) ltac:(lia)) as Hr.
  set (q := n / 2 ^ k) in *. set (r := n mod 2 ^ k) in *.
  set (h := 2 ^ (k - 1)) in *.
  rewrite H2k in *. clearbody q r h.
  destruct (r ?= h) eqn:C.
  - apply Z.compare_eq in C. destruct (Z.even q); lia.
  - rewrite Z.compare_lt_iff in C. lia.
  - rewrite Z.compare_gt_iff in C. lia.
Qed.

(** [round] and [binary_normalize] give the same binary64 on integer
    conversions, on quotients by 1024, next to the overflow point and
    among the subnormals. *)
Example round_agrees_with_binary_normalize :
  Forall (fun ne : Z * Z =>
            to_spec (round false (fst ne) (snd ne))
            = binary_normalize prec emax (fst ne) (snd ne) false)
    [(1048575, -10); (2 ^ 53 + 1, -10); (2 ^ 53 + 3, 0); (2 ^ 54 + 2, 0);
     (2 ^ 54 + 6, 0); (2 ^ 60 - 1, 0); (1, -1080); (3, -1075); (1, -1075);
     (5, -1076); (2 ^ 1024 - 2 ^ 970, 0); (2 ^ 1024 - 2 ^ 970 - 1, 0);
     (2 ^ 1034 - 2 ^ 980 - 1, -10); (2 ^ 1034 - 2 ^ 980, -10)].
Proof. repeat (constructor; [vm_compute; reflexivity|]). constructor. Qed.

(** [div_pow2 f 10] and [SFdiv] by 1024 give the same binary64. *)
Example div_pow2_agrees_with_SFdiv :
  Forall (fun f : float =>
            to_spec (div_pow2 f 10)
            = SFdiv prec emax (to_spec f)
                    (binary_normalize prec emax 1024 0 false))
    [Finite false 1048575 (-10); Finite false 3 (-1070);
     Finite false 1023 (-1074); Finite false 1536 (-1074);
     Finite false 512 (-1074); Finite true 0 0;
     Finite true (2 ^ 53 - 1) 971; Finite false (2 ^ 52) 0].
Proof. repeat (constructor; [vm_compute; reflexivity|]). constructor. Qed.

(** [ltb_int f 1024] and [SFltb] against 1024 agree. *)
Example ltb_int_agrees_with_SFltb :
  Forall (fun f : float =>
            ltb_int f 1024
            = SFltb (to_spec f) (binary_normalize prec emax 1024 0 false))
    [Finite false 1048575 (-10); Finite false 1 10; Finite false 1023 0;
     Finite false (2 ^ 53 - 1) (-43); Finite false (2 ^ 52) (-42);
     Finite true 5 300; Inf true; Inf false; NaN; Finite false 0 0].
Proof. repeat (constructor; [vm_compute; reflexivity|]). constructor. Qed.

End SpecFloatAgreement.

(* ================================================================== *)
(** * Further properties *)

(* ------------------------------------------------------------------ *)
(** ** [format_bytes]: which unit, which digits *)

Module UnitFacts.
Import Float64 Float64Facts FormatBytesFacts.

(** Below [2^53] and above the subnormal exponents nothing is rounded:
    the float is the number itself. *)
Lemma round_exact_small (n e : Z) :
  0 <= n < 2 ^ prec -> emin <= e < 0 -> round false n e = Finite false n e.
Proof.
  intros Hn He. rewrite round_unfold.
  assert (Hs : shift n e = 0).
  { unfold shift.
    pose proof (bit_length_le n prec ltac:(lia) ltac:(unfold prec; lia) ltac:(lia)).
    lia. }
  rewrite Hs, round_shr_zero_shift. replace (e + 0) with e by lia.
  assert (H0 : (0 <=? e) = false) by (apply Z.leb_gt; lia).
  rewrite H0. reflexivity.
Qed.

Lemma pow1024 (j : Z) : 0 <= j -> 1024 ^ j = 2 ^ (10 * j).
Proof.
  intros Hj. change 1024 with (2 ^ 10). rewrite <- Z.pow_mul_r by lia.
  reflexivity.
Qed.

(** One turn of the loop. *)
Lemma format_bytes_loop_turn (unit : string) (rest : list string) (v : pynum) :
  format_bytes_loop (unit :: rest) v =
  if lt v 1024 then fstring_value_unit v unit
  else match truediv_pow2 v 10 with
       | Returns v' => format_bytes_loop rest v'
       | Raises e => Raises e
       end.
Proof. reflexivity. Qed.

(** The test of the loop on an exactly scaled value. *)
Lemma ltb_scaled (b j : Z) :
  0 < j ->
  ltb_int (Finite false b (- (10 * j))) 1024 = (b <? 1024 ^ (j + 1)).
Proof.
  intros Hj. unfold ltb_int.
  assert (H0 : (0 <=? - (10 * j)) = false) by (apply Z.leb_gt; lia).
  rewrite H0. rewrite Z.opp_involutive.
  rewrite (pow1024 (j + 1)) by lia.
  replace (10 * (j + 1)) with (10 + 10 * j) by lia.
  rewrite pow2_split by lia. reflexivity.
Qed.

(** A turn of the loop that stops. *)
Lemma loop_stops (unit : string) (rest : list string) (b j : Z) :
  0 < j -> b < 1024 ^ (j + 1) ->
  format_bytes_loop (unit :: rest) (PyFloat (Finite false b (- (10 * j)))) =
  Returns (fixed2 (round_shr (100 * b) (10 * j)) ++ " " ++ unit).
Proof.
  intros Hj Hb. rewrite format_bytes_loop_turn.
  cbn [lt]. rewrite ltb_scaled by assumption.
  apply Z.ltb_lt in Hb. rewrite Hb.
  unfold fstring_value_unit, format_spec_2f, format_2f, hundredths.
  assert (H0 : (0 <=? - (10 * j)) = false) by (apply Z.leb_gt; lia).
  rewrite H0. rewrite Z.opp_involutive. reflexivity.
Qed.

(** A turn of the loop that divides. *)
Lemma loop_divides (unit : string) (rest : list string) (b j : Z) :
  0 <= b < 2 ^ prec -> 0 < j <= 100 -> 1024 ^ (j + 1) <= b ->
  format_bytes_loop (unit :: rest) (PyFloat (Finite false b (- (10 * j)))) =
  format_bytes_loop rest (PyFloat (Finite false b (- (10 * (j + 1))))).
Proof.
  intros Hb Hj Hge. rewrite format_bytes_loop_turn.
  cbn [lt]. rewrite ltb_scaled by lia.
  apply Z.ltb_ge in Hge. rewrite Hge.
  unfold truediv_pow2, div_pow2.
  rewrite round_exact_small by (unfold emin; lia).
  do 3 f_equal. lia.
Qed.

(** The first turn on an integer of at least 1024. *)
Lemma first_turn_divides (b : Z) :
  1024 <= b < 2 ^ prec ->
  format_bytes (PyInt b) =
  format_bytes_loop ["KB"; "MB"; "GB"; "TB"]
                    (PyFloat (Finite false b (- (10 * 1)))).
Proof.
  intros Hb. rewrite format_bytes_first_turn.
  assert (Hlt : lt (PyInt b) 1024 = false) by (apply Z.ltb_ge; lia).
  rewrite Hlt. unfold truediv_pow2.
  assert (Hs : (b <? 0) = false) by (apply Z.ltb_ge; lia).
  rewrite Hs, Z.abs_eq by lia.
  rewrite round_exact_small by (unfold emin; lia). reflexivity.
Qed.

(** The statement after the loop. *)
Lemma loop_exhausted (b j : Z) :
  0 < j ->
  format_bytes_loop [] (PyFloat (Finite false b (- (10 * j)))) =
  Returns (fixed2 (round_shr (100 * b) (10 * j)) ++ " " ++ "PB").
Proof.
  intros Hj. cbn [format_bytes_loop].
  unfold fstring_value_unit, format_spec_2f, format_2f, hundredths.
  assert (H0 : (0 <=? - (10 * j)) = false) by (apply Z.leb_gt; lia).
  rewrite H0. rewrite Z.opp_involutive. reflexivity.
Qed.

Lemma compare_scale (a b c : Z) : 0 < c -> (a * c ?= b * c) = (a ?= b).
Proof.
  intros Hc. destruct (Z.compare_spec a b) as [->|H|H].
  - apply Z.compare_refl.
  - apply Z.compare_lt_iff. nia.
  - apply Z.compare_gt_iff. nia.
Qed.

(** Multiplying the number and the divisor by [2^j] does not change
    the rounded quotient. *)
Lemma round_shr_scale (n k j : Z) :
  0 <= n -> 0 <= k -> 0 <= j ->
  round_shr (n * 2 ^ j) (k + j) = round_shr n k.
Proof.
  intros Hn Hk Hj.
  destruct (Z.eq_dec k 0) as [->|Hk0].
  - rewrite round_shr_zero_shift. apply round_shr_exact. lia.
  - unfold round_shr.
    assert (E1 : (k + j <=? 0) = false) by (apply Z.leb_gt; lia).
    assert (E2 : (k <=? 0) = false) by (apply Z.leb_gt; lia).
    rewrite E1, E2.
    pose proof (pow2_pos j Hj) as Hpj. pose proof (pow2_pos k Hk) as Hpk.
    rewrite (pow2_split k j) by lia.
    rewrite Z.div_mul_cancel_r by lia.
    rewrite Z.mul_mod_distr_r by lia.
    replace (k + j - 1) with ((k - 1) + j) by lia.
    rewrite (pow2_split (k - 1) j) by lia.
    rewrite compare_scale by lia. reflexivity.
Qed.

End UnitFacts.

Section UnitByMagnitude.
Import Float64 Float64Facts FormatBytesFacts UnitFacts.

(** Below [2^53] every division of the loop is exact, so the unit and
    the digits can be read off the byte count. *)
Lemma format_bytes_exact (b k : Z) :
  0 <= k <= 5 ->
  unit_floor k <= b ->
  (k < 5 -> b < 1024 ^ (k + 1)) ->
  b < 2 ^ 53 ->
  format_bytes (PyInt b) =
  Returns (fixed2 (scaled_hundredths b k) ++ " " ++ unit_name k).
Proof.
  intros Hk Hlow Hhigh H53. unfold scaled_hundredths, unit_name, unit_floor in *.
  assert (Hcases : k = 0 \/ k = 1 \/ k = 2 \/ k = 3 \/ k = 4 \/ k = 5) by lia.
  destruct Hcases as [->|[->|[->|[->|[->| ->]]]]].
  - change (0 =? 0) with true in Hlow. cbv iota in Hlow.
    specialize (Hhigh ltac:(lia)). change (1024 ^ (0 + 1)) with 1024 in Hhigh.
    pose proof float_limit_above_prec as Hp. unfold prec in Hp.
    rewrite format_bytes_small_int by lia.
    rewrite small_int_shift by (rewrite Z.abs_eq by lia; unfold prec; lia).
    rewrite round_shr_zero_shift. rewrite Z.abs_eq by lia.
    assert (Hn : (b <? 0) = false) by (apply Z.ltb_ge; lia).
    rewrite Hn. unfold format_2f, hundredths.
    change (0 <=? 0) with true. cbv iota.
    change (10 * 0) with 0. rewrite round_shr_zero_shift.
    replace (100 * b * 2 ^ 0) with (100 * b) by (change (2 ^ 0) with 1; lia).
    reflexivity.
  - change (1 =? 0) with false in Hlow. cbv iota in Hlow.
    specialize (Hhigh ltac:(lia)). change (1024 ^ 1) with 1024 in Hlow.
    rewrite first_turn_divides by (unfold prec; lia).
    rewrite loop_stops by (assumption || lia). reflexivity.
  - change (2 =? 0) with false in Hlow. cbv iota in Hlow.
    specialize (Hhigh ltac:(lia)).
    assert (1024 ^ 2 = 1048576) by reflexivity.
    rewrite first_turn_divides by (unfold prec; lia).
    rewrite loop_divides by (unfold prec; (assumption || lia)).
    change (1 + 1) with 2.
    rewrite loop_stops by (assumption || lia). reflexivity.
  - change (3 =? 0) with false in Hlow. cbv iota in Hlow.
    specialize (Hhigh ltac:(lia)).
    assert (1024 ^ 2 = 1048576) by reflexivity.
    assert (1024 ^ 3 = 1073741824) by reflexivity.
    rewrite first_turn_divides by (unfold prec; lia).
    rewrite loop_divides by (unfold prec; change (1 + 1) with 2; lia).
    change (1 + 1) with 2.
    rewrite loop_divides by (unfold prec; change (2 + 1) with 3; lia).
    change (2 + 1) with 3.
    rewrite loop_stops by (assumption || lia). reflexivity.
  - change (4 =? 0) with false in Hlow. cbv iota in Hlow.
    specialize (Hhigh ltac:(lia)).
    assert (1024 ^ 2 = 1048576) by reflexivity.
    assert (1024 ^ 3 = 1073741824) by reflexivity.
    assert (1024 ^ 4 = 1099511627776) by reflexivity.
    rewrite first_turn_divides by (unfold prec; lia).
    rewrite loop_divides by (unfold prec; change (1 + 1) with 2; lia).
    change (1 + 1) with 2.
    rewrite loop_divides by (unfold prec; change (2 + 1) with 3; lia).
    change (2 + 1) with 3.
    rewrite loop_divides by (unfold prec; change (3 + 1) with 4; lia).
    change (3 + 1) with 4.
    rewrite loop_stops by (assumption || lia). reflexivity.
  - change (5 =? 0) with false in Hlow. cbv iota in Hlow.
    assert (1024 ^ 2 = 1048576) by reflexivity.
    assert (1024 ^ 3 = 1073741824) by reflexivity.
    assert (1024 ^ 4 = 1099511627776) by reflexivity.
    assert (1024 ^ 5 = 1125899906842624) by reflexivity.
    rewrite first_turn_divides by (unfold prec; lia).
    rewrite loop_divides by (unfold prec; change (1 + 1) with 2; lia).
    change (1 + 1) with 2.
    rewrite loop_divides by (unfold prec; change (2 + 1) with 3; lia).
    change (2 + 1) with 3.
    rewrite loop_divides by (unfold prec; change (3 + 1) with 4; lia).
    change (3 + 1) with 4.
    rewrite loop_divides by (unfold prec; change (4 + 1) with 5; lia).
    change (4 + 1) with 5.
    rewrite loop_exhausted by lia. reflexivity.
Qed.

End UnitByMagnitude.

(** X1.  For a byte count below [2^53], [format_bytes] picks the unit
    by magnitude: index [k] when [1024^k <= b < 1024^(k+1)] (from 0 for
    B, to PB from [1024^5] on) and prints [100 * b / 1024^k] rounded to
    the nearest integer, ties to even, as hundredths: the printed number
    is within half a hundredth of the scaled byte count. *)
Theorem format_bytes_unit_by_magnitude (b k : Z) :
  0 <= k <= 5 ->
  unit_floor k <= b ->
  (k < 5 -> b < 1024 ^ (k + 1)) ->
  b < 2 ^ 53 ->
  format_bytes (PyInt b) =
  Returns (fixed2 (scaled_hundredths b k) ++ " " ++ unit_name k)
  /\ 2 * Z.abs (scaled_hundredths b k * 1024 ^ k - 100 * b) <= 1024 ^ k.
Proof.
  intros Hk Hlow Hhigh H53. split.
  - apply format_bytes_exact; assumption.
  - assert (Hb : 0 <= b).
    { unfold unit_floor in Hlow. destruct (k =? 0); [lia|].
      pose proof (Z.pow_nonneg 1024 k ltac:(lia)). lia. }
    unfold scaled_hundredths. destruct (Z.eq_dec k 0) as [->|Hk0].
    + change (10 * 0) with 0. rewrite Float64Facts.round_shr_zero_shift.
      change (1024 ^ 0) with 1. lia.
    + rewrite UnitFacts.pow1024 by lia.
      apply SpecFloatAgreement.round_shr_nearest; lia.
Qed.

Lemma format_bytes_unit_by_magnitude_witness :
  0 <= 2 <= 5
  /\ unit_floor 2 <= 1572864
  /\ (2 < 5 -> 1572864 < 1024 ^ (2 + 1))
  /\ 1572864 < 2 ^ 53
  /\ format_bytes (PyInt 1572864) =
     Returns (fixed2 (scaled_hundredths 1572864 2) ++ " " ++ unit_name 2)
  /\ 2 * Z.abs (scaled_hundredths 1572864 2 * 1024 ^ 2 - 100 * 1572864)
     <= 1024 ^ 2.
Proof.
  assert (H1 : 0 <= 2 <= 5) by lia.
  assert (H2 : unit_floor 2 <= 1572864) by (vm_compute; discriminate).
  assert (H3 : 2 < 5 -> 1572864 < 1024 ^ (2 + 1)) by (intros _; reflexivity).
  assert (H4 : 1572864 < 2 ^ 53) by reflexivity.
  split; [exact H1|]. split; [exact H2|]. split; [exact H3|].
  split; [exact H4|].
  apply (format_bytes_unit_by_magnitude 1572864 2 H1 H2 H3 H4).
Defined.

(** X2.  Multiplying a byte count by 1024 moves it to the next unit
    and leaves the digits as they are (as long as the product stays
    below [2^53]). *)
Theorem format_bytes_times_1024 (b k : Z) :
  0 <= k <= 4 ->
  1 <= b ->
  unit_floor k <= b < 1024 ^ (k + 1) ->
  1024 * b < 2 ^ 53 ->
  exists n,
    format_bytes (PyInt b) = Returns (fixed2 n ++ " " ++ unit_name k)
    /\ format_bytes (PyInt (1024 * b)) =
       Returns (fixed2 n ++ " " ++ unit_name (k + 1)).
Proof.
  intros Hk Hb [Hlow Hhigh] H53.
  exists (scaled_hundredths b k). split.
  - apply format_bytes_exact; try lia.
  - replace (scaled_hundredths b k) with (scaled_hundredths (1024 * b) (k + 1)).
    + apply format_bytes_exact; try lia.
      * unfold unit_floor in *.
        assert (E : (k + 1 =? 0) = false) by (apply Z.eqb_neq; lia).
        rewrite E. rewrite Z.pow_add_r by lia. change (1024 ^ 1) with 1024.
        destruct (k =? 0) eqn:E0.
        -- apply Z.eqb_eq in E0. subst. change (1024 ^ 0) with 1. lia.
        -- lia.
      * intros _. replace (k + 1 + 1) with ((k + 1) + 1) by lia.
        rewrite (Z.pow_add_r 1024 (k + 1) 1) by lia.
        change (1024 ^ 1) with 1024. lia.
    + unfold scaled_hundredths.
      replace (100 * (1024 * b)) with (100 * b * 2 ^ 10)
        by (change (2 ^ 10) with 1024; lia).
      replace (10 * (k + 1)) with (10 * k + 10) by lia.
      apply UnitFacts.round_shr_scale; lia.
Qed.

Lemma format_bytes_times_1024_witness :
  0 <= 1 <= 4
  /\ 1 <= 1536
  /\ unit_floor 1 <= 1536 < 1024 ^ (1 + 1)
  /\ 1024 * 1536 < 2 ^ 53
  /\ exists n,
       format_bytes (PyInt 1536) = Returns (fixed2 n ++ " " ++ unit_name 1)
       /\ format_bytes (PyInt (1024 * 1536)) =
          Returns (fixed2 n ++ " " ++ unit_name (1 + 1)).
Proof.
  assert (H1 : 0 <= 1 <= 4) by lia.
  assert (H2 : 1 <= 1536) by lia.
  assert (H3 : unit_floor 1 <= 1536 < 1024 ^ (1 + 1))
    by (split; [vm_compute; discriminate|reflexivity]).
  assert (H4 : 1024 * 1536 < 2 ^ 53) by reflexivity.
  split; [exact H1|]. split; [exact H2|]. split; [exact H3|].
  split; [exact H4|].
  apply (format_bytes_times_1024 1536 1 H1 H2 H3 H4).
Defined.

(* ------------------------------------------------------------------ *)
(** ** [format_bytes]: from 1024^5 on *)

Module PetaFacts.
Import Float64 Float64Facts FormatBytesFacts UnitFacts.

(** Rounding does not take a number below a power of two it reached. *)
Lemma round_at_least (n e j : Z) :
  0 <= n -> 0 <= j -> below_overflow n e ->
  2 ^ j * 2 ^ Z.max (- e) 0 <= n * 2 ^ Z.max e 0 ->
  at_least_pow2 (round false n e) j.
Proof.
  intros Hn Hj Hbo Hge. rewrite (round_finite false n e Hn Hbo).
  cbn [at_least_pow2].
  set (k := shift n e) in *.
  assert (Hk0 : 0 <= k) by (unfold k, shift; lia).
  destruct (Z.eq_dec k 0) as [Hkz|Hkz].
  - rewrite Hkz, round_shr_zero_shift. replace (e + 0) with e by lia.
    exact Hge.
  - assert (Hkpos : 0 < k) by lia.
    pose proof (pow2_pos k Hk0) as Hpk.
    pose proof (pow2_pos j Hj) as Hpj.
    pose proof (round_shr_between n k Hn Hkpos) as [Hql _].
    set (P := Z.max e 0) in *. set (Q := Z.max (- e) 0) in *.
    assert (HP0 : 0 <= P) by (unfold P; lia).
    assert (HQ0 : 0 <= Q) by (unfold Q; lia).
    pose proof (pow2_pos P HP0) as HpP. pose proof (pow2_pos Q HQ0) as HpQ.
    assert (Hnpos : 0 < n) by nia.
    set (P' := Z.max (e + k) 0). set (Q' := Z.max (- (e + k)) 0).
    assert (HP'0 : 0 <= P') by (unfold P'; lia).
    assert (HQ'0 : 0 <= Q') by (unfold Q'; lia).
    pose proof (pow2_pos P' HP'0) as HpP'. pose proof (pow2_pos Q' HQ'0) as HpQ'.
    apply Z.le_trans with (n / 2 ^ k * 2 ^ P');
      [|apply Z.mul_le_mono_nonneg_r; lia].
    destruct (Z_le_gt_dec (e + k) j) as [Hsmall|Hlarge].
    + (* the bound survives the division by 2^k *)
      assert (Hn_ge : 2 ^ (j - e) <= n).
      { assert (Hje : 0 <= j - e) by lia.
        assert (Heq : 2 ^ (j - e) * 2 ^ P = 2 ^ j * 2 ^ Q).
        { rewrite <- !pow2_split by lia. f_equal. unfold P, Q. lia. }
        nia. }
      assert (Hq_ge : 2 ^ (j - e - k) <= n / 2 ^ k).
      { apply Z.div_le_lower_bound; [lia|].
        rewrite Z.mul_comm. rewrite <- pow2_split by lia.
        replace (j - e - k + k) with (j - e) by lia. exact Hn_ge. }
      apply Z.le_trans with (2 ^ (j - e - k) * 2 ^ P');
        [|apply Z.mul_le_mono_nonneg_r; lia].
      rewrite <- !pow2_split by lia.
      apply Z.pow_le_mono_r; [lia|]. unfold P', Q'. lia.
    + (* a normal number: the kept mantissa has 53 bits *)
      assert (Hk : k = bit_length n - prec).
      { unfold k, shift in *. unfold emin in *. lia. }
      pose proof (bit_length_lower n Hnpos) as Hlow.
      assert (Hq1 : 1 <= n / 2 ^ k).
      { apply Z.div_le_lower_bound; [lia|].
        apply Z.le_trans with (2 ^ (bit_length n - 1)); [|exact Hlow].
        rewrite Z.mul_1_r. apply Z.pow_le_mono_r; [lia|]. unfold prec in *. lia. }
      apply Z.le_trans with (1 * 2 ^ P');
        [|apply Z.mul_le_mono_nonneg_r; lia].
      rewrite Z.mul_1_l. rewrite <- pow2_split by lia.
      apply Z.pow_le_mono_r; [lia|]. unfold P', Q'. lia.
Qed.

Lemma at_least_pow2_weaken (f : float) (j j' : Z) :
  0 <= j' <= j -> at_least_pow2 f j -> at_least_pow2 f j'.
Proof.
  intros Hj. destruct f as [[|] m e| |]; cbn [at_least_pow2]; try tauto.
  intros H. eapply Z.le_trans; [|exact H].
  apply Z.mul_le_mono_nonneg_r.
  - pose proof (pow2_pos (Z.max (- e) 0) ltac:(lia)). lia.
  - apply Z.pow_le_mono_r; lia.
Qed.

(** A float of at least 1024 fails the test of the loop. *)
Lemma at_least_1024_not_lt (f : float) :
  at_least_pow2 f 10 -> ltb_int f 1024 = false.
Proof.
  destruct f as [[|] m e| |]; cbn [at_least_pow2]; try tauto.
  intros H. unfold ltb_int. change (2 ^ 10) with 1024 in H.
  destruct (0 <=? e) eqn:E.
  - apply Z.leb_le in E. rewrite Z.max_r in H by lia.
    rewrite Z.max_l in H by lia. change (2 ^ 0) with 1 in H.
    apply Z.ltb_ge. lia.
  - apply Z.leb_gt in E. rewrite Z.max_l in H by lia.
    rewrite Z.max_r in H by lia. change (2 ^ 0) with 1 in H.
    apply Z.ltb_ge. lia.
Qed.

(** Division by 1024 takes [2^(j+10)] to [2^j]. *)
Lemma div_pow2_at_least (f : float) (j : Z) :
  0 <= j -> regular f -> at_least_pow2 f (j + 10) ->
  at_least_pow2 (div_pow2 f 10) j.
Proof.
  intros Hj Hf Hge.
  destruct f as [s m e| |]; cbn [regular] in Hf; try tauto.
  pose proof Hf as (-> & [Hm0 Hm] & _).
  cbn [at_least_pow2] in Hge. cbn [div_pow2].
  apply round_at_least; [assumption|assumption|
                         apply regular_div_below; exact Hf|].
  pose proof (pow2_pos j Hj) as Hpj.
  rewrite (pow2_split j 10) in Hge by lia.
  destruct (Z_le_gt_dec 10 e) as [He|He].
  - rewrite Z.max_r in Hge by lia. rewrite (Z.max_l e 0) in Hge by lia.
    rewrite (Z.max_r (- (e - 10)) 0) by lia. rewrite (Z.max_l (e - 10) 0) by lia.
    change (2 ^ 0) with 1 in *.
    replace e with ((e - 10) + 10) in Hge at 1 by lia.
    rewrite pow2_split in Hge by lia.
    pose proof (pow2_pos (e - 10) ltac:(lia)).
    change (2 ^ 10) with 1024 in Hge. nia.
  - rewrite (Z.max_l (- (e - 10)) 0) by lia. rewrite (Z.max_r (e - 10) 0) by lia.
    change (2 ^ 0) with 1.
    destruct (Z_le_gt_dec 0 e) as [He0|He0].
    + rewrite Z.max_r in Hge by lia. rewrite (Z.max_l e 0) in Hge by lia.
      change (2 ^ 0) with 1 in Hge.
      replace (- (e - 10)) with ((10 - e)) by lia.
      assert (H10 : 2 ^ 10 = 2 ^ (10 - e) * 2 ^ e)
        by (rewrite <- pow2_split by lia; f_equal; lia).
      rewrite H10 in Hge.
      pose proof (pow2_pos e He0). pose proof (pow2_pos (10 - e) ltac:(lia)).
      nia.
    + rewrite Z.max_l in Hge by lia. rewrite (Z.max_r e 0) in Hge by lia.
      change (2 ^ 0) with 1 in Hge.
      replace (- (e - 10)) with (10 + - e) by lia.
      rewrite pow2_split by lia. lia.
Qed.

(** A float of at least 1 prints as at least 1.00. *)
Lemma hundredths_at_least_100 (m e : Z) :
  0 <= m -> at_least_pow2 (Finite false m e) 0 -> 100 <= hundredths m e.
Proof.
  intros Hm H. cbn [at_least_pow2] in H. change (2 ^ 0) with 1 in H.
  unfold hundredths. destruct (0 <=? e) eqn:E.
  - apply Z.leb_le in E. rewrite Z.max_r in H by lia.
    rewrite Z.max_l in H by lia. change (2 ^ 0) with 1 in H. lia.
  - apply Z.leb_gt in E. rewrite Z.max_l in H by lia.
    rewrite Z.max_r in H by lia. change (2 ^ 0) with 1 in H.
    pose proof (pow2_pos (- e) ltac:(lia)) as Hp.
    pose proof (round_shr_between (100 * m) (- e) ltac:(lia) ltac:(lia))
      as [Hq _].
    assert (100 <= 100 * m / 2 ^ (- e)); [|lia].
    apply Z.div_le_lower_bound; lia.
Qed.

(** The loop on a float that every remaining test will find at least
    1024: it runs to the end and prints PB. *)
Lemma loop_runs_out (units : list string) :
  forall f, regular f ->
  at_least_pow2 f (10 * Z.of_nat (List.length units)) ->
  exists n,
    format_bytes_loop units (PyFloat f) = Returns (fixed2 n ++ " " ++ "PB")
    /\ 100 <= n.
Proof.
  induction units as [|u rest IH]; intros f Hf Hge.
  - destruct f as [s m e| |]; cbn [regular] in Hf; try tauto.
    pose proof Hf as (-> & [Hm0 _] & _).
    exists (hundredths m e). split; [reflexivity|].
    apply hundredths_at_least_100; assumption.
  - rewrite format_bytes_loop_turn. cbn [lt].
    assert (Hlen : 10 * Z.of_nat (List.length (u :: rest))
                   = 10 * Z.of_nat (List.length rest) + 10).
    { cbn [List.length]. lia. }
    rewrite Hlen in Hge.
    rewrite at_least_1024_not_lt
      by (apply (at_least_pow2_weaken f
                   (10 * Z.of_nat (List.length rest) + 10) 10);
          [lia|exact Hge]).
    cbn [truediv_pow2].
    apply IH; [apply div_pow2_regular; exact Hf|].
    apply div_pow2_at_least; [lia|exact Hf|exact Hge].
Qed.

End PetaFacts.

(** X3.  Every byte count from [1024^5] up to the end of the float
    range is shown in PB, with a numeric part of at least 1.00: there
    is no larger unit and no further scaling, also where the divisions
    round. *)
Theorem format_bytes_petabytes (b : Z) :
  1024 ^ 5 <= b < float_limit * 1024 ->
  exists n,
    format_bytes (PyInt b) = Returns (fixed2 n ++ " " ++ "PB") /\ 100 <= n.
Proof.
  intros [Hlow Hhigh].
  assert (H5 : 1024 ^ 5 = 2 ^ 40 * 2 ^ 10) by reflexivity.
  assert (H40 : 0 < 2 ^ 40) by reflexivity.
  change (2 ^ 10) with 1024 in H5.
  rewrite format_bytes_first_turn.
  assert (Hlt : lt (PyInt b) 1024 = false) by (apply Z.ltb_ge; lia).
  rewrite Hlt. unfold truediv_pow2.
  assert (Hs : (b <? 0) = false) by (apply Z.ltb_ge; lia).
  rewrite Hs, Z.abs_eq by lia.
  assert (Hbo : Float64.below_overflow b (- (10))).
  { change (b * 1 < float_limit * 1024). lia. }
  pose proof (FormatBytesFacts.round_regular b (- (10)) ltac:(lia) Hbo) as Hreg.
  assert (Hge : at_least_pow2 (Float64.round false b (- (10))) 40).
  { apply PetaFacts.round_at_least; [lia|lia|exact Hbo|].
    change (2 ^ 40 * 1024 <= b * 1). lia. }
  destruct (Float64.round false b (- (10))) as [s m e| |] eqn:E;
    cbn [Float64.regular] in Hreg; try tauto.
  apply (PetaFacts.loop_runs_out ["KB"; "MB"; "GB"; "TB"]); assumption.
Qed.

Lemma format_bytes_petabytes_witness :
  1024 ^ 5 <= 2 ^ 100 < float_limit * 1024
  /\ exists n,
       format_bytes (PyInt (2 ^ 100)) = Returns (fixed2 n ++ " " ++ "PB")
       /\ 100 <= n.
Proof.
  assert (H : 1024 ^ 5 <= 2 ^ 100 < float_limit * 1024)
    by (split; [vm_compute; discriminate|reflexivity]).
  split; [exact H|].
  apply (format_bytes_petabytes (2 ^ 100) H).
Defined.

(** X4.  [format_bytes] returns exactly on the floats and on the
    integers strictly between [-(2^1024 - 2^970)] and
    [(2^1024 - 2^970) * 1024]; on every other integer it raises
    [OverflowError], and it raises nothing else. *)
Theorem format_bytes_raises_only_overflow (v : pynum) :
  (in_float_range v <-> exists s, format_bytes v = Returns s)
  /\ (forall e, format_bytes v = Raises e -> e = OverflowError).
Proof.
  split; [apply format_bytes_returns_iff|].
  intros e He. destruct v as [b|f].
  - destruct (Z_le_gt_dec b (- float_limit)) as [Hl|Hl].
    + rewrite format_bytes_overflows in He by (left; assumption).
      inversion He. reflexivity.
    + destruct (Z_le_gt_dec (float_limit * 1024) b) as [Hh|Hh].
      * rewrite format_bytes_overflows in He by (right; assumption).
        inversion He. reflexivity.
      * destruct (format_bytes_returns (PyInt b)) as (s & Hs);
          [cbn [in_float_range]; lia|].
        rewrite Hs in He. discriminate He.
  - destruct (format_bytes_returns (PyFloat f) I) as (s & Hs).
    rewrite Hs in He. discriminate He.
Qed.

(* ------------------------------------------------------------------ *)
(** ** [get_network_info]: what is remembered, what is asked *)

(** The body when an exception escapes the handler. *)
Lemma get_network_info_body_escapes (h : host) (p : process) (e : exn) :
  resolution_escapes h e ->
  exists cs, get_network_info_body h p = (Raises e, logged p cs).
Proof.
  unfold get_network_info_body, try_except, bind, call, ret.
  intros (He & [H1|[(name & H1 & H2)|(name & ip & H1 & H2 & H3)]]).
  - rewrite H1. rewrite catches_socket_error, He.
    exists [Call_gethostname]. reflexivity.
  - rewrite H1. cbv beta iota. rewrite H2.
    rewrite catches_socket_error, He.
    exists [Call_gethostname; Call_gethostbyname name].
    unfold logged. cbn [stdout network_cache ctypes_imported calls].
    rewrite <- app_assoc. reflexivity.
  - rewrite H1. cbv beta iota. rewrite H2. cbv beta iota. rewrite H3.
    rewrite catches_socket_error, He.
    exists [Call_gethostname; Call_gethostbyname name; Call_getfqdn].
    unfold logged. cbn [stdout network_cache ctypes_imported calls].
    rewrite <- !app_assoc. reflexivity.
Qed.

(** Every run of the body: what it gives and which calls it made. *)
Lemma get_network_info_body_cases (h : host) (p : process) :
  exists o cs,
    get_network_info_body h p = (o, logged p cs)
    /\ socket_calls_in_order h cs
    /\ (o = Returns unavailable
        \/ (exists name ip full,
              socket_gethostname h = Returns name
              /\ socket_gethostbyname h name = Returns ip
              /\ socket_getfqdn h = Returns full
              /\ o = Returns {| hostname := Some name; ip_address := Some ip;
                                fqdn := if String.eqb full name
                                        then None else Some full |})
        \/ (exists e, o = Raises e /\ resolution_escapes h e)).
Proof.
  unfold get_network_info_body, try_except, bind, call, ret.
  destruct (socket_gethostname h) as [name|e] eqn:H1.
  - cbv beta iota.
    destruct (socket_gethostbyname h name) as [ip|e] eqn:H2.
    + cbv beta iota.
      destruct (socket_getfqdn h) as [full|e] eqn:H3.
      * cbv beta iota.
        eexists. exists [Call_gethostname; Call_gethostbyname name; Call_getfqdn].
        split; [|split].
        -- unfold logged. cbn [stdout network_cache ctypes_imported calls].
           rewrite <- !app_assoc. reflexivity.
        -- right. right. exists name, ip. repeat split; assumption.
        -- right. left. exists name, ip, full. repeat split; auto.
      * rewrite catches_socket_error.
        destruct (issubclass e OSError) eqn:He.
        -- eexists. exists [Call_gethostname; Call_gethostbyname name; Call_getfqdn].
           split; [|split].
           ++ unfold logged. cbn [stdout network_cache ctypes_imported calls].
              rewrite <- !app_assoc. reflexivity.
           ++ right. right. exists name, ip. repeat split; assumption.
           ++ left. reflexivity.
        -- eexists. exists [Call_gethostname; Call_gethostbyname name; Call_getfqdn].
           split; [|split].
           ++ unfold logged. cbn [stdout network_cache ctypes_imported calls].
              rewrite <- !app_assoc. reflexivity.
           ++ right. right. exists name, ip. repeat split; assumption.
           ++ right. right. exists e. split; [reflexivity|].
              split; [exact He|]. right. right. exists name, ip. auto.
    + rewrite catches_socket_error.
      destruct (issubclass e OSError) eqn:He.
      * eexists. exists [Call_gethostname; Call_gethostbyname name].
        split; [|split].
        -- unfold logged. cbn [stdout network_cache ctypes_imported calls].
           rewrite <- !app_assoc. reflexivity.
        -- right. left. exists name, e. repeat split; assumption.
        -- left. reflexivity.
      * eexists. exists [Call_gethostname; Call_gethostbyname name].
        split; [|split].
        -- unfold logged. cbn [stdout network_cache ctypes_imported calls].
           rewrite <- !app_assoc. reflexivity.
        -- right. left. exists name, e. repeat split; assumption.
        -- right. right. exists e. split; [reflexivity|].
           split; [exact He|]. right. left. exists name. auto.
  - rewrite catches_socket_error.
    destruct (issubclass e OSError) eqn:He.
    + eexists. exists [Call_gethostname]. split; [reflexivity|].
      split; [left; exists e; split; [assumption|reflexivity]|]. left. reflexivity.
    + eexists. exists [Call_gethostname]. split; [reflexivity|].
      split; [left; exists e; split; [assumption|reflexivity]|]. right. right. exists e.
      split; [reflexivity|]. split; [exact He|]. left. assumption.
Qed.

(** X5.  A resolution that failed with a socket error is remembered
    like a success: every later call in the process answers with the
    three fields unavailable, also on a host where the names resolve
    by then. *)
Theorem get_network_info_failure_is_remembered (h1 h2 : host) (p : process) :
  network_cache p = None ->
  resolution_fails h1 ->
  exists p1,
    get_network_info h1 p =
    (Returns {| hostname := None; ip_address := None; fqdn := None |}, p1)
    /\ get_network_info h2 p1 =
       (Returns {| hostname := None; ip_address := None; fqdn := None |}, p1).
Proof.
  intros Hc Hf.
  destruct (get_network_info_body_fails h1 p Hf) as (cs & Hb).
  unfold get_network_info, lru_cache. rewrite Hc, Hb.
  eexists. split; [reflexivity|]. reflexivity.
Qed.

Lemma get_network_info_failure_is_remembered_witness :
  network_cache initial_process = None
  /\ resolution_fails linux_host_degraded
  /\ exists p1,
       get_network_info linux_host_degraded initial_process =
       (Returns {| hostname := None; ip_address := None; fqdn := None |}, p1)
       /\ get_network_info linux_host p1 =
          (Returns {| hostname := None; ip_address := None; fqdn := None |}, p1).
Proof.
  assert (Hf : resolution_fails linux_host_degraded).
  { right. left. exists "box", gaierror. repeat split. }
  split; [reflexivity|]. split; [exact Hf|].
  apply (get_network_info_failure_is_remembered linux_host_degraded linux_host
           initial_process eq_refl Hf).
Defined.

(** X6.  An exception that is no socket error leaves
    [get_network_info] as it was raised and is not remembered: the
    cache slot stays empty and nothing is printed, so the next call
    asks the host again, beginning with [gethostname]. *)
Theorem get_network_info_escaping_error_not_cached
        (h h2 : host) (p : process) (e : exn) :
  network_cache p = None ->
  resolution_escapes h e ->
  exists p1,
    get_network_info h p = (Raises e, p1)
    /\ network_cache p1 = None
    /\ stdout p1 = stdout p
    /\ exists cs,
         calls (snd (get_network_info h2 p1))
         = (calls p1 ++ Call_gethostname :: cs)%list.
Proof.
  intros Hc He.
  destruct (get_network_info_body_escapes h p e He) as (cs & Hb).
  unfold get_network_info, lru_cache. rewrite Hc, Hb.
  exists (logged p cs). split; [reflexivity|].
  split; [exact Hc|]. split; [reflexivity|].
  cbn [logged network_cache]. rewrite Hc.
  destruct (get_network_info_body_cases h2 (logged p cs))
    as (o & cs2 & Hb2 & Hord & _).
  rewrite Hb2.
  assert (Hhead : exists tl, cs2 = Call_gethostname :: tl).
  { destruct Hord as [(e0 & _ & ->)
                     |[(name & e0 & _ & _ & ->)|(name & ip & _ & _ & ->)]];
      eexists; reflexivity. }
  destruct Hhead as (tl & ->). exists tl.
  destruct o; reflexivity.
Qed.

Lemma linux_host_long_name_escapes :
  resolution_escapes linux_host_long_name UnicodeError.
Proof.
  split; [reflexivity|]. right. left. exists long_name. split; reflexivity.
Qed.

Lemma get_network_info_escaping_error_not_cached_witness :
  network_cache initial_process = None
  /\ resolution_escapes linux_host_long_name UnicodeError
  /\ exists p1,
       get_network_info linux_host_long_name initial_process
       = (Raises UnicodeError, p1)
       /\ network_cache p1 = None
       /\ stdout p1 = stdout initial_process
       /\ exists cs,
            calls (snd (get_network_info linux_host p1))
            = (calls p1 ++ Call_gethostname :: cs)%list.
Proof.
  split; [reflexivity|]. split; [exact linux_host_long_name_escapes|].
  apply (get_network_info_escaping_error_not_cached linux_host_long_name
           linux_host initial_process UnicodeError eq_refl
           linux_host_long_name_escapes).
Defined.

(** X7.  A record that [get_network_info] computes is never half
    filled: either its three fields are [None], or the host name and
    the address are both present, the address being the one looked up
    for that host name, and the FQDN, when present, is what [getfqdn]
    returned and differs from the host name. *)
Theorem get_network_info_record_shape
        (h : host) (p p' : process) (r : network_info) :
  network_cache p = None ->
  get_network_info h p = (Returns r, p') ->
  r = {| hostname := None; ip_address := None; fqdn := None |}
  \/ exists name ip,
       socket_gethostname h = Returns name
       /\ socket_gethostbyname h name = Returns ip
       /\ hostname r = Some name
       /\ ip_address r = Some ip
       /\ fqdn r <> Some name
       /\ (forall full, fqdn r = Some full -> socket_getfqdn h = Returns full).
Proof.
  intros Hc Hr. unfold get_network_info, lru_cache in Hr. rewrite Hc in Hr.
  destruct (get_network_info_body_cases h p) as (o & cs & Hb & _ & Ho).
  rewrite Hb in Hr.
  destruct Ho as [->|[(name & ip & full & H1 & H2 & H3 & ->)|(e & -> & _)]].
  - inversion Hr. left. reflexivity.
  - inversion Hr. right. exists name, ip. cbn [hostname ip_address fqdn].
    repeat split; try assumption.
    + destruct (String.eqb_spec full name) as [Heq|Hne].
      * discriminate.
      * intros Hs. inversion Hs. contradiction.
    + intros full' Hs. destruct (String.eqb full name); [discriminate|].
      inversion Hs. subst. assumption.
  - discriminate Hr.
Qed.

Lemma get_network_info_record_shape_witness :
  let r := {| hostname := Some "box"; ip_address := Some "127.0.1.1";
              fqdn := Some "box.example.org" |} in
  let p' := snd (get_network_info linux_host initial_process) in
  network_cache initial_process = None
  /\ get_network_info linux_host initial_process = (Returns r, p')
  /\ (r = {| hostname := None; ip_address := None; fqdn := None |}
      \/ exists name ip,
           socket_gethostname linux_host = Returns name
           /\ socket_gethostbyname linux_host name = Returns ip
           /\ hostname r = Some name
           /\ ip_address r = Some ip
           /\ fqdn r <> Some name
           /\ (forall full, fqdn r = Some full ->
                            socket_getfqdn linux_host = Returns full)).
Proof.
  cbv zeta. split; [reflexivity|]. split; [reflexivity|].
  apply (get_network_info_record_shape linux_host initial_process
           (snd (get_network_info linux_host initial_process)) _ eq_refl).
  reflexivity.
Defined.

(** X8.  From an empty cache [get_network_info] makes its socket calls
    in the order [gethostname], [gethostbyname], [getfqdn], up to and
    including the first that raises: [gethostname] alone exactly when
    it raises; [gethostname] and [gethostbyname], on the name
    [gethostname] returned, exactly when that lookup raises; all three
    when both return.  Nothing else changes in the process but the
    cache slot. *)
Theorem get_network_info_calls_in_order (h : host) (p : process) :
  network_cache p = None ->
  exists cs,
    calls (snd (get_network_info h p)) = (calls p ++ cs)%list
    /\ socket_calls_in_order h cs
    /\ stdout (snd (get_network_info h p)) = stdout p
    /\ ctypes_imported (snd (get_network_info h p)) = ctypes_imported p.
Proof.
  intros Hc. unfold get_network_info, lru_cache. rewrite Hc.
  destruct (get_network_info_body_cases h p) as (o & cs & Hb & Hord & _).
  rewrite Hb. exists cs. destruct o; repeat split; assumption.
Qed.

Lemma get_network_info_calls_in_order_witness :
  network_cache initial_process = None
  /\ exists cs,
       calls (snd (get_network_info linux_host_degraded initial_process))
       = (calls initial_process ++ cs)%list
       /\ socket_calls_in_order linux_host_degraded cs
       /\ stdout (snd (get_network_info linux_host_degraded initial_process))
          = stdout initial_process
       /\ ctypes_imported
            (snd (get_network_info linux_host_degraded initial_process))
          = ctypes_imported initial_process.
Proof.
  split; [reflexivity|].
  apply (get_network_info_calls_in_order linux_host_degraded initial_process
           eq_refl).
Defined.

(* ------------------------------------------------------------------ *)
(** ** [get_filesystem_info]: what it asks, what it returns *)

Lemma os_name_other (h : host) :
  os_name h <> "posix" -> os_name h <> "nt" ->
  String.eqb (os_name h) "posix" = false /\ String.eqb (os_name h) "nt" = false.
Proof. intros H1 H2. split; apply String.eqb_neq; assumption. Qed.

(** On POSIX the state after the call is the state before it with one
    more platform call, [os.statvfs(".")], whatever the call gave. *)
Lemma get_filesystem_info_posix_state (h : host) (p : process) :
  os_name h = "posix" ->
  snd (get_filesystem_info h p) = logged p [Call_statvfs "."].
Proof.
  intros Hos. unfold get_filesystem_info. rewrite (os_name_posix h Hos).
  unfold try_except, bind, call, lift, ret.
  destruct (os_statvfs h ".") as [st|e]; cbv beta iota zeta.
  - destruct (format_bytes (PyInt (f_frsize st * f_blocks st))) as [s1|e1];
      cbv beta iota; [|destruct (catches _ e1); reflexivity].
    destruct (format_bytes (PyInt (f_frsize st * f_bavail st))) as [s2|e2];
      cbv beta iota; [|destruct (catches _ e2); reflexivity].
    destruct (format_bytes
                (PyInt (f_frsize st * f_blocks st - f_frsize st * f_bavail st)))
      as [s3|e3]; cbv beta iota; [reflexivity|].
    destruct (catches _ e3); reflexivity.
  - destruct (catches _ e); reflexivity.
Qed.

Lemma logged_nil (p : process) : logged p [] = p.
Proof. unfold logged. rewrite app_nil_r. destruct p; reflexivity. Qed.

(** On Windows the state changes by the calls made: none, [os.getcwd()],
    or [os.getcwd()] and [GetDiskFreeSpaceExW] on what it returned. *)
Lemma get_filesystem_info_nt_state (h : host) (p : process) :
  os_name h = "nt" ->
  exists cs,
    snd (get_filesystem_info h p) = logged p cs
    /\ (cs = [] \/ cs = [Call_getcwd]
        \/ exists cwd, os_getcwd h = Returns cwd
                       /\ cs = [Call_getcwd; Call_GetDiskFreeSpaceExW cwd]).
Proof.
  intros Hos. unfold get_filesystem_info. destruct (os_name_nt h Hos) as [-> ->].
  unfold try_except, bind, name_ctypes, call, lift, ret.
  destruct (ctypes_imported p); cbv beta iota zeta.
  - destruct (kernel32_GetDiskFreeSpaceExW h) as [api|e]; cbv beta iota.
    + destruct (os_getcwd h) as [cwd|e] eqn:Hcwd; cbv beta iota.
      * exists [Call_getcwd; Call_GetDiskFreeSpaceExW cwd].
        split; [|right; right; exists cwd; split; reflexivity].
        assert (Hl : logged (logged p [Call_getcwd]) [Call_GetDiskFreeSpaceExW cwd]
                     = logged p [Call_getcwd; Call_GetDiskFreeSpaceExW cwd]).
        { unfold logged. cbn [stdout network_cache ctypes_imported calls].
          rewrite <- app_assoc. reflexivity. }
        rewrite <- Hl.
        destruct (api cwd) as [stored|e]; cbv beta iota;
          [|destruct (catches _ e); reflexivity].
        repeat match goal with
               | |- context [format_bytes ?x] =>
                   destruct (format_bytes x) as [?s|?e]; cbv beta iota
               end;
          try reflexivity;
          match goal with
          | |- context [catches ?c ?e] => destruct (catches c e); reflexivity
          end.
      * exists [Call_getcwd]. split; [|right; left; reflexivity].
        destruct (catches _ e); reflexivity.
    + exists []. split; [|left; reflexivity]. rewrite logged_nil.
      destruct (catches _ e); reflexivity.
  - exists []. split; [|left; reflexivity]. rewrite logged_nil. reflexivity.
Qed.

(** X9.  [get_filesystem_info] prints nothing and leaves the cache and
    the [ctypes] binding alone; it only asks the platform.  On POSIX it
    asks exactly once, for ".", whatever the answer; on Windows it asks
    for no directory but the one [os.getcwd()] returned; on any other
    system it asks nothing. *)
Theorem get_filesystem_info_only_asks (h : host) (p : process) :
  exists cs,
    snd (get_filesystem_info h p) = logged p cs
    /\ (os_name h = "posix" -> cs = [Call_statvfs "."])
    /\ (os_name h = "nt" ->
        cs = [] \/ cs = [Call_getcwd]
        \/ exists cwd, os_getcwd h = Returns cwd
                       /\ cs = [Call_getcwd; Call_GetDiskFreeSpaceExW cwd])
    /\ (os_name h <> "posix" -> os_name h <> "nt" -> cs = []).
Proof.
  destruct (String.eqb_spec (os_name h) "posix") as [Hposix|Hnposix].
  - exists [Call_statvfs "."].
    split; [apply get_filesystem_info_posix_state; assumption|].
    split; [reflexivity|]. split.
    + intros Hnt. rewrite Hposix in Hnt. discriminate Hnt.
    + intros Hn. contradiction.
  - destruct (String.eqb_spec (os_name h) "nt") as [Hnt|Hnnt].
    + destruct (get_filesystem_info_nt_state h p Hnt) as (cs & Hs & Hcs).
      exists cs. split; [exact Hs|]. split; [contradiction|].
      split; [intros _; exact Hcs|]. intros _ Hn. contradiction.
    + exists []. split.
      * unfold get_filesystem_info.
        destruct (os_name_other h Hnposix Hnnt) as [-> ->].
        rewrite logged_nil. reflexivity.
      * split; [contradiction|]. split; [contradiction|]. reflexivity.
Qed.

(** X10.  Every record [get_filesystem_info] returns comes from one
    query that answered.  On POSIX its sizes are the renderings of
    [f_frsize * f_blocks], [f_frsize * f_bavail] and their difference
    and ['type'] is [f_flag]; on Windows [ctypes] was imported and the
    record has no ['type']; on any other system no record is returned. *)
Theorem get_filesystem_info_record_origin
        (h : host) (p p' : process) (r : filesystem_info) :
  get_filesystem_info h p = (Returns (Some r), p') ->
  (os_name h = "posix"
   /\ exists st,
        os_statvfs h "." = Returns st
        /\ format_bytes (PyInt (f_frsize st * f_blocks st)) = Returns (total r)
        /\ format_bytes (PyInt (f_frsize st * f_bavail st))
           = Returns (available r)
        /\ format_bytes
             (PyInt (f_frsize st * f_blocks st - f_frsize st * f_bavail st))
           = Returns (used r)
        /\ type r = Some (f_flag st))
  \/ (os_name h = "nt"
      /\ ctypes_imported p = true
      /\ type r = None
      /\ exists api cwd stored,
           kernel32_GetDiskFreeSpaceExW h = Returns api
           /\ os_getcwd h = Returns cwd
           /\ api cwd = Returns stored).
Proof.
  intros Hr. unfold get_filesystem_info in Hr.
  destruct (String.eqb_spec (os_name h) "posix") as [Hposix|Hnposix].
  - left. split; [assumption|].
    unfold try_except, bind, call, lift, ret in Hr.
    destruct (os_statvfs h ".") as [st|e]; cbv beta iota zeta in Hr.
    + exists st. split; [reflexivity|].
      destruct (format_bytes (PyInt (f_frsize st * f_blocks st))) as [s1|e1];
        cbv beta iota in Hr;
        [|destruct (catches _ e1); inversion Hr].
      destruct (format_bytes (PyInt (f_frsize st * f_bavail st))) as [s2|e2];
        cbv beta iota in Hr;
        [|destruct (catches _ e2); inversion Hr].
      destruct (format_bytes
                  (PyInt (f_frsize st * f_blocks st - f_frsize st * f_bavail st)))
        as [s3|e3]; cbv beta iota in Hr;
        [|destruct (catches _ e3); inversion Hr].
      inversion Hr. cbn [total available used type]. repeat split.
    + destruct (catches _ e); inversion Hr.
  - destruct (String.eqb_spec (os_name h) "nt") as [Hnt|Hnnt].
    + right. split; [assumption|].
      unfold try_except, bind, name_ctypes, call, lift, ret in Hr.
      destruct (ctypes_imported p); cbv beta iota zeta in Hr;
        [|inversion Hr].
      split; [reflexivity|].
      destruct (kernel32_GetDiskFreeSpaceExW h) as [api|e];
        cbv beta iota in Hr; [|destruct (catches _ e); inversion Hr].
      destruct (os_getcwd h) as [cwd|e]; cbv beta iota in Hr;
        [|destruct (catches _ e); inversion Hr].
      destruct (api cwd) as [stored|e] eqn:Hcall; cbv beta iota in Hr;
        [|destruct (catches _ e); inversion Hr].
      repeat match type of Hr with
             | context [format_bytes ?x] =>
                 destruct (format_bytes x) as [?s|?e]; cbv beta iota in Hr
             end;
        try (match type of Hr with
             | context [catches ?c ?e] => destruct (catches c e); inversion Hr
             end).
      inversion Hr. cbn [type]. split; [reflexivity|].
      exists api, cwd, stored. repeat split. exact Hcall.
    + unfold ret in Hr. inversion Hr.
Qed.

Lemma get_filesystem_info_record_origin_witness :
  let run := get_filesystem_info linux_host initial_process in
  let r := {| total := "3.91 MB"; available := "1000.00 KB";
              used := "2.93 MB"; type := Some 4096 |} in
  run = (Returns (Some r), snd run)
  /\ ((os_name linux_host = "posix"
       /\ exists st,
            os_statvfs linux_host "." = Returns st
            /\ format_bytes (PyInt (f_frsize st * f_blocks st))
               = Returns (total r)
            /\ format_bytes (PyInt (f_frsize st * f_bavail st))
               = Returns (available r)
            /\ format_bytes
                 (PyInt (f_frsize st * f_blocks st - f_frsize st * f_bavail st))
               = Returns (used r)
            /\ type r = Some (f_flag st))
      \/ (os_name linux_host = "nt"
          /\ ctypes_imported initial_process = true
          /\ type r = None
          /\ exists api cwd stored,
               kernel32_GetDiskFreeSpaceExW linux_host = Returns api
               /\ os_getcwd linux_host = Returns cwd
               /\ api cwd = Returns stored)).
Proof.
  cbv zeta.
  assert (Hrun : get_filesystem_info linux_host initial_process
                 = (Returns (Some {| total := "3.91 MB";
                                     available := "1000.00 KB";
                                     used := "2.93 MB"; type := Some 4096 |}),
                    snd (get_filesystem_info linux_host initial_process)))
    by (vm_compute; reflexivity).
  split; [exact Hrun|].
  apply (get_filesystem_info_record_origin linux_host initial_process _ _ Hrun).
Defined.

(** Without the name [ctypes] the Windows path raises at once. *)
Lemma nt_path_raises_name_error (h : host) (p : process) :
  os_name h = "nt" ->
  ctypes_imported p = false ->
  get_filesystem_info h p = (Raises NameError, p).
Proof.
  intros Hos Hct. unfold get_filesystem_info.
  destruct (os_name_nt h Hos) as [-> ->].
  unfold try_except, bind, name_ctypes. rewrite Hct. reflexivity.
Qed.

(** X11.  On Windows [get_filesystem_info] needs the global name
    [ctypes], which only the [__main__] block binds: called without it,
    the function raises [NameError], which its handler does not name,
    before it has asked the platform anything. *)
Theorem get_filesystem_info_needs_ctypes (h : host) (p : process) :
  os_name h = "nt" ->
  ctypes_imported p = false ->
  get_filesystem_info h p = (Raises NameError, p)
  /\ catches [AttributeError; OSError] NameError = false.
Proof.
  intros Hos Hct. split; [|reflexivity].
  apply nt_path_raises_name_error; assumption.
Qed.

Lemma get_filesystem_info_needs_ctypes_witness :
  os_name windows_host = "nt"
  /\ ctypes_imported initial_process = false
  /\ get_filesystem_info windows_host initial_process
     = (Raises NameError, initial_process)
  /\ catches [AttributeError; OSError] NameError = false.
Proof.
  split; [reflexivity|]. split; [reflexivity|].
  apply (get_filesystem_info_needs_ctypes windows_host initial_process);
    reflexivity.
Defined.

(** X12.  On Windows a call of [GetDiskFreeSpaceExW] that reports
    failure (it returns zero and stores nothing) is taken for a
    success: whatever the host, the record returned holds "0.00 B" for
    total, available and used. *)
Theorem get_filesystem_info_nt_unchecked_status
        (h : host) (p : process)
        (api : string -> outcome (option disk_free_space)) (cwd : string) :
  os_name h = "nt" ->
  ctypes_imported p = true ->
  kernel32_GetDiskFreeSpaceExW h = Returns api ->
  os_getcwd h = Returns cwd ->
  api cwd = Returns None ->
  get_filesystem_info h p =
  (Returns (Some {| total := "0.00 B"; available := "0.00 B";
                    used := "0.00 B"; type := None |}),
   logged p [Call_getcwd; Call_GetDiskFreeSpaceExW cwd]).
Proof.
  intros Hos Hct Hapi Hcwd Hcall.
  destruct (get_filesystem_info_nt_returns h p api cwd None
              Hos Hct Hapi Hcwd Hcall) as (a & b & c & Ha & Hb & Hc & Hr).
  rewrite Hr.
  change (c_ulonglong_value 0) with 0 in Ha, Hb, Hc.
  change (0 - 0) with 0 in Hc.
  assert (H0 : format_bytes (PyInt 0) = Returns "0.00 B")
    by (vm_compute; reflexivity).
  rewrite H0 in Ha, Hb, Hc. inversion Ha. inversion Hb. inversion Hc.
  reflexivity.
Qed.

Lemma get_filesystem_info_nt_unchecked_status_witness :
  let p := snd (import_ctypes initial_process) in
  os_name windows_host_disk_query_fails = "nt"
  /\ ctypes_imported p = true
  /\ os_getcwd windows_host_disk_query_fails = Returns "C:\work"
  /\ get_filesystem_info windows_host_disk_query_fails p =
     (Returns (Some {| total := "0.00 B"; available := "0.00 B";
                       used := "0.00 B"; type := None |}),
      logged p [Call_getcwd; Call_GetDiskFreeSpaceExW "C:\work"]).
Proof.
  cbv zeta. repeat (split; [reflexivity|]).
  apply (get_filesystem_info_nt_unchecked_status
           windows_host_disk_query_fails
           (snd (import_ctypes initial_process))
           (fun _ => Returns None) "C:\work");
    reflexivity.
Defined.

(* ------------------------------------------------------------------ *)
(** ** [main] and the script: every run *)

(** [get_network_info] prints nothing and imports nothing, whatever it
    gives. *)
Lemma get_network_info_quiet (h : host) (p : process) :
  stdout (snd (get_network_info h p)) = stdout p
  /\ ctypes_imported (snd (get_network_info h p)) = ctypes_imported p.
Proof.
  unfold get_network_info, lru_cache.
  destruct (network_cache p) as [r|]; [split; reflexivity|].
  destruct (get_network_info_body_cases h p) as (o & cs & Hb & _ & _).
  rewrite Hb. destruct o; split; reflexivity.
Qed.

(** [get_filesystem_info] prints nothing. *)
Lemma get_filesystem_info_quiet (h : host) (p : process) :
  stdout (snd (get_filesystem_info h p)) = stdout p.
Proof.
  destruct (String.eqb_spec (os_name h) "posix") as [Hposix|Hnposix].
  - rewrite (get_filesystem_info_posix_state h p Hposix). reflexivity.
  - destruct (String.eqb_spec (os_name h) "nt") as [Hnt|Hnnt].
    + destruct (get_filesystem_info_nt_state h p Hnt) as (cs & -> & _).
      reflexivity.
    + unfold get_filesystem_info.
      destruct (os_name_other h Hnposix Hnnt) as [-> ->]. reflexivity.
Qed.

(** A run that stopped before the sixth section. *)
Ltac stopped_early :=
  cbn [fst snd List.length printed stdout accepted_prefix];
  split;
  [ rewrite ?app_nil_r, <- ?app_assoc; reflexivity
  | split; intros Hstop; discriminate Hstop ].

(** Every run of [main]: stdout grows by the sections the queries
    allow, up to the first the console refuses; and [main] returns
    exactly when that makes six. *)
Lemma main_prints_accepted_prefix
      (repr_str : string -> string) (h : host) (p : process) :
  stdout (snd (main repr_str h p)) =
  (stdout p ++ accepted_prefix h (planned_sections repr_str h p))%list
  /\ (fst (main repr_str h p) = Returns tt
      <-> List.length (accepted_prefix h (planned_sections repr_str h p))
          = 6%nat).
Proof.
  unfold main, planned_sections, before_network_query, bind, console_print.
  cbn [app accepted_prefix]. cbv beta.
  destruct (rich_console_print h (Panel_fit _ _)) as [[]|e1];
    cbv beta iota; [|stopped_early].
  destruct (rich_console_print h (os_tree repr_str h)) as [[]|e2];
    cbv beta iota; [|stopped_early].
  destruct (rich_console_print h (python_table h)) as [[]|e3];
    cbv beta iota; [|stopped_early].
  set (p3 := printed (printed (printed p _) _) _).
  assert (H3 : stdout p3 =
               (stdout p ++
                [Panel_fit "System Information" "bold blue";
                 os_tree repr_str h; python_table h])%list).
  { unfold p3, printed. cbn [stdout]. rewrite <- !app_assoc. reflexivity. }
  pose proof (get_network_info_quiet h p3) as [Hnq _].
  destruct (get_network_info h p3) as [[net|e] p4]; cbn [snd] in Hnq;
    cbv beta iota; cbn [accepted_prefix].
  2: { cbn [fst snd List.length]. rewrite Hnq, H3.
       split; [reflexivity|]. split; intros Hstop; discriminate Hstop. }
  destruct (rich_console_print h (network_panel net)) as [[]|e4];
    cbv beta iota.
  2: { cbn [fst snd List.length]. rewrite Hnq, H3.
       split; [reflexivity|]. split; intros Hstop; discriminate Hstop. }
  set (p5 := printed p4 _).
  assert (H5 : stdout p5 =
               (stdout p ++
                [Panel_fit "System Information" "bold blue";
                 os_tree repr_str h; python_table h;
                 network_panel net])%list).
  { unfold p5. cbn [printed stdout]. rewrite Hnq, H3.
    rewrite <- !app_assoc. reflexivity. }
  pose proof (get_filesystem_info_quiet h p5) as Hfq.
  destruct (get_filesystem_info h p5) as [[fs|e] p6]; cbn [snd] in Hfq;
    cbv beta iota; cbn [accepted_prefix].
  2: { cbn [fst snd List.length]. rewrite Hfq, H5.
       split; [reflexivity|]. split; intros Hstop; discriminate Hstop. }
  destruct (rich_console_print h (filesystem_section fs)) as [[]|e5];
    cbv beta iota.
  2: { cbn [fst snd List.length]. rewrite Hfq, H5.
       split; [reflexivity|]. split; intros Hstop; discriminate Hstop. }
  destruct (rich_console_print h (time_panel repr_str h)) as [[]|e6];
    cbv beta iota.
  2: { cbn [fst snd List.length printed stdout]. rewrite Hfq, H5.
       split; [rewrite <- !app_assoc; reflexivity|].
       split; intros Hstop; discriminate Hstop. }
  cbn [fst snd List.length printed stdout]. rewrite Hfq, H5.
  split; [rewrite <- !app_assoc; reflexivity|].
  split; reflexivity.
Qed.










(** X17.  End to end when name resolution fails with a socket error and
    the console prints the first four sections: the fourth section of
    the run is the network panel whose three lines all read "Could not
    be determined" in red, whatever the filesystem query and the
    console do afterwards. *)
Theorem script_shows_failed_resolution
        (repr_str : string -> string) (h : host) (p : process) :
  network_cache p = None ->
  resolution_fails h ->
  console_accepts h
    [Panel_fit "System Information" "bold blue";
     os_tree repr_str h;
     python_table h;
     Panel ("[cyan]Hostname:[/cyan] [red]Could not be determined[/red]" ++ nl
            ++ "[cyan]IP Address:[/cyan] [red]Could not be determined[/red]"
            ++ nl
            ++ "[cyan]FQDN:[/cyan] [red]Could not be determined[/red]")
           "🌐 Network Information" "blue"] ->
  exists rest,
    stdout (snd (script repr_str h p)) =
    (stdout p ++
     [Panel_fit "System Information" "bold blue";
      os_tree repr_str h;
      python_table h;
      Panel ("[cyan]Hostname:[/cyan] [red]Could not be determined[/red]" ++ nl
             ++ "[cyan]IP Address:[/cyan] [red]Could not be determined[/red]"
             ++ nl
             ++ "[cyan]FQDN:[/cyan] [red]Could not be determined[/red]")
            "🌐 Network Information" "blue"] ++ rest)%list.
Proof.
  intros Hcache Hf Hc.
  destruct (console_accepts_cons _ _ _ Hc) as [H1 Hc1].
  destruct (console_accepts_cons _ _ _ Hc1) as [H2 Hc2].
  destruct (console_accepts_cons _ _ _ Hc2) as [H3 Hc3].
  destruct (console_accepts_cons _ _ _ Hc3) as [H4 _].
  rewrite script_starts.
  destruct (main_prints_accepted_prefix repr_str h (started h p))
    as [Hout _].
  rewrite Hout, started_stdout.
  set (p3 := before_network_query repr_str h (started h p)).
  destruct (get_network_info_body_fails h p3 Hf) as (cs & Hb).
  assert (Hn : get_network_info h p3
               = (Returns unavailable, cached (logged p3 cs) unavailable)).
  { unfold get_network_info, lru_cache.
    change (network_cache p3) with (network_cache (started h p)).
    rewrite started_network_cache, Hcache, Hb. reflexivity. }
  unfold planned_sections. fold p3. rewrite Hn.
  cbn [app accepted_prefix]. rewrite H1, H2, H3.
  change (network_panel unavailable)
    with (Panel ("[cyan]Hostname:[/cyan] [red]Could not be determined[/red]"
                 ++ nl
                 ++ "[cyan]IP Address:[/cyan] [red]Could not be determined[/red]"
                 ++ nl
                 ++ "[cyan]FQDN:[/cyan] [red]Could not be determined[/red]")
                "🌐 Network Information" "blue").
  rewrite H4.
  eexists. reflexivity.
Qed.

Lemma script_shows_failed_resolution_witness :
  network_cache initial_process = None
  /\ resolution_fails linux_host_degraded
  /\ console_accepts linux_host_degraded
       [Panel_fit "System Information" "bold blue";
        os_tree repr_plain linux_host_degraded;
        python_table linux_host_degraded;
        Panel ("[cyan]Hostname:[/cyan] [red]Could not be determined[/red]"
               ++ nl
               ++ "[cyan]IP Address:[/cyan] [red]Could not be determined[/red]"
               ++ nl
               ++ "[cyan]FQDN:[/cyan] [red]Could not be determined[/red]")
              "🌐 Network Information" "blue"]
  /\ exists rest,
       stdout (snd (script repr_plain linux_host_degraded initial_process)) =
       (stdout initial_process ++
        [Panel_fit "System Information" "bold blue";
         os_tree repr_plain linux_host_degraded;
         python_table linux_host_degraded;
         Panel ("[cyan]Hostname:[/cyan] [red]Could not be determined[/red]"
                ++ nl
                ++ "[cyan]IP Address:[/cyan] [red]Could not be determined[/red]"
                ++ nl
                ++ "[cyan]FQDN:[/cyan] [red]Could not be determined[/red]")
               "🌐 Network Information" "blue"] ++ rest)%list.
Proof.
  assert (Hf : resolution_fails linux_host_degraded).
  { right. left. exists "box", gaierror. repeat split. }
  assert (Hc : console_accepts linux_host_degraded
                 [Panel_fit "System Information" "bold blue";
                  os_tree repr_plain linux_host_degraded;
                  python_table linux_host_degraded;
                  Panel ("[cyan]Hostname:[/cyan] [red]Could not be determined[/red]"
                         ++ nl
                         ++ "[cyan]IP Address:[/cyan] [red]Could not be determined[/red]"
                         ++ nl
                         ++ "[cyan]FQDN:[/cyan] [red]Could not be determined[/red]")
                        "🌐 Network Information" "blue"]).
  { intros r _. reflexivity. }
  split; [reflexivity|]. split; [exact Hf|]. split; [exact Hc|].
  apply (script_shows_failed_resolution repr_plain linux_host_degraded
           initial_process eq_refl Hf Hc).
Defined.

(** X18.  A line of the network panel shows the field as it is when
    it is a non-empty string, and the red marker when it is [None] or
    the empty string: an empty host name is shown like a missing one. *)
Theorem network_panel_lines (net : network_info) :
  exists l1 l2 l3,
    network_panel net =
    Panel ("[cyan]Hostname:[/cyan] " ++ l1 ++ nl
           ++ "[cyan]IP Address:[/cyan] " ++ l2 ++ nl
           ++ "[cyan]FQDN:[/cyan] " ++ l3)
          "🌐 Network Information" "blue"
    /\ (forall field l,
          (field, l) = (hostname net, l1) \/ (field, l) = (ip_address net, l2)
          \/ (field, l) = (fqdn net, l3) ->
          (forall s, field = Some s -> s <> "" -> l = s)
          /\ (field = None \/ field = Some "" ->
              l = "[red]Could not be determined[/red]")).
Proof.
  exists (py_or (hostname net) could_not_be_determined),
         (py_or (ip_address net) could_not_be_determined),
         (py_or (fqdn net) could_not_be_determined).
  split; [reflexivity|].
  assert (Hor : forall field,
             (forall s, field = Some s -> s <> "" ->
                        py_or field could_not_be_determined = s)
             /\ (field = None \/ field = Some "" ->
                 py_or field could_not_be_determined
                 = "[red]Could not be determined[/red]")).
  { intros field. split.
    - intros s -> Hs. unfold py_or.
      destruct (String.eqb_spec s ""); [contradiction|reflexivity].
    - intros [->| ->]; reflexivity. }
  intros field l [H|[H|H]]; inversion H; subst; apply Hor.
Qed.
